(** * SEARCHING.py: the search and ranking engine of [MedicalAgent]

    A shallow embedding of [MedicalAgent.search] and
    [MedicalAgent.calculate_postal_distance], with the properties of the
    engine stated and proved (or refuted) over it.

    Conventions of the embedding.
    - Python [str] is [string] (one-byte characters); [lower], [split],
      [in], [startswith], [isdigit] and [int] are written out in [Py] for the
      ASCII range.
    - Python numbers that may be fractional ([_distance], fuzzy scores) are
      rationals [Q]; integers are [Z].
    - A pandas [DataFrame] is its column list and its rows, each row carrying
      its index label; a boolean [Series] is a list of labelled booleans and
      [|] aligns on labels as pandas does.
    - Exceptions are values of [exn]; code that can raise returns [result]. *)

From Stdlib Require Import ZArith QArith Qminmax Ascii String List Bool Lia
  Sorted Permutation.
From stdpp Require Import base option list sorting gmap strings.

Local Open Scope string_scope.
Local Open Scope list_scope.
Local Open Scope Z_scope.

(** ** Python built-ins over ASCII strings *)

Module Py.

Definition code (c : ascii) : nat := nat_of_ascii c.

(** [str.isspace] on one character: TAB..CR, FS..US and SPACE. *)
Definition is_space (c : ascii) : bool :=
  ((9 <=? code c) && (code c <=? 13) || (28 <=? code c) && (code c <=? 32))%nat.

Definition is_digit (c : ascii) : bool :=
  ((48 <=? code c) && (code c <=? 57))%nat.

Definition lower_char (c : ascii) : ascii :=
  if ((65 <=? code c) && (code c <=? 90))%nat
  then ascii_of_nat (code c + 32) else c.

(** [s.lower()] *)
Fixpoint lower (s : string) : string :=
  match s with
  | EmptyString => EmptyString
  | String c s' => String (lower_char c) (lower s')
  end.

(** [s.startswith(p)] *)
Fixpoint startswith (p s : string) : bool :=
  match p, s with
  | EmptyString, _ => true
  | String a p', String b s' => if Ascii.eqb a b then startswith p' s' else false
  | String _ _, EmptyString => false
  end.

(** [sub in s] *)
Fixpoint contains (sub s : string) : bool :=
  startswith sub s ||
  match s with
  | EmptyString => false
  | String _ s' => contains sub s'
  end.

(** [s.split()]: maximal runs of non-space characters. [cur] is the word
    being read, if any. *)
Fixpoint split_go (cur : option string) (s : string) : list string :=
  match s with
  | EmptyString => match cur with Some w => [w] | None => [] end
  | String c s' =>
      if is_space c then
        match cur with
        | Some w => w :: split_go None s'
        | None => split_go None s'
        end
      else
        split_go (Some (match cur with
                        | Some w => String.append w (String c EmptyString)
                        | None => String c EmptyString
                        end)) s'
  end.

Definition split (s : string) : list string := split_go None s.

Fixpoint all_digits (s : string) : bool :=
  match s with
  | EmptyString => true
  | String c s' => is_digit c && all_digits s'
  end.

(** [s.isdigit()] *)
Definition isdigit (s : string) : bool :=
  match s with EmptyString => false | _ => all_digits s end.

Definition digit_val (c : ascii) : Z := Z.of_nat (code c) - 48.

Fixpoint int_go (acc : Z) (s : string) : Z :=
  match s with
  | EmptyString => acc
  | String c s' => int_go (10 * acc + digit_val c) s'
  end.

(** [int(s)] for a string of decimal digits *)
Definition int (s : string) : Z := int_go 0 s.

(** Truth value of a string obtained with [dict.get]: absent ([None]) and
    [''] are false. *)
Definition truthy (o : option string) : bool :=
  match o with
  | Some s => negb (String.eqb s "")
  | None => false
  end.

End Py.

(** ** [calculate_postal_distance] *)

(** The hop table keyed by ordered pairs of sectors. *)
Definition area_distances : gmap (Z * Z) Z :=
  list_to_map
    [ ((1, 2), 1); ((1, 3), 2); ((1, 4), 3); ((1, 5), 4); ((1, 6), 5);
      ((1, 7), 6); ((1, 8), 7); ((1, 9), 8); ((1, 10), 9);
      ((75, 76), 1); ((75, 77), 2); ((75, 78), 3); ((75, 79), 4);
      ((79, 80), 1); ((80, 81), 1); ((81, 82), 1);
      ((10, 11), 1); ((11, 12), 1); ((12, 13), 1); ((13, 14), 1);
      ((14, 15), 1); ((15, 16), 1);
      ((46, 47), 1); ((47, 48), 1); ((48, 49), 1); ((49, 50), 1);
      ((50, 51), 1); ((51, 52), 1);
      ((60, 61), 1); ((61, 62), 1); ((62, 63), 1); ((63, 64), 1);
      ((64, 65), 1); ((65, 66), 1); ((66, 67), 1); ((67, 68), 1);
      ((68, 69), 1);
      ((53, 54), 1); ((54, 55), 1); ((55, 56), 1); ((56, 57), 1);
      ((57, 58), 1); ((58, 59), 1) ].

(** [tuple(sorted([a, b]))] *)
Definition sorted_pair (a b : Z) : Z * Z :=
  if a <=? b then (a, b) else (b, a).

Definition calculate_postal_distance (postal1 postal2 : Z) : Q :=
  let area1 := postal1 / 10000 in
  let area2 := postal2 / 10000 in
  if area1 =? area2 then inject_Z (Z.abs (postal1 - postal2))
  else
    let area_pair := sorted_pair area1 area2 in
    let base_distance :=
      match area_distances !! area_pair with
      | Some hops => hops * 10000
      | None => Z.abs (area1 - area2) * 10000
      end in
    let sub_distance :=
      Qmake (Z.abs (postal1 mod 10000 - postal2 mod 10000)) 100 in
    (inject_Z base_distance + sub_distance)%Q.

Example distance_same_sector :
  calculate_postal_distance 640526 640652 = inject_Z 126.
Proof. reflexivity. Qed.

Lemma sorted_pair_comm a b : sorted_pair a b = sorted_pair b a.
Proof.
  unfold sorted_pair.
  destruct (Z.leb_spec a b), (Z.leb_spec b a); try reflexivity; try lia.
  assert (a = b) by lia. congruence.
Qed.

Lemma abs_diff_comm (x y : Z) : Z.abs (x - y) = Z.abs (y - x).
Proof. lia. Qed.

(** C3. The postal distance heuristic is symmetric: swapping the two postal
    codes gives the same distance. It holds for all integers, so in
    particular for every pair of 6-digit codes. *)
Theorem calculate_postal_distance_sym (a b : Z) :
  calculate_postal_distance a b = calculate_postal_distance b a.
Proof.
  unfold calculate_postal_distance.
  rewrite (Z.eqb_sym (b / 10000)).
  destruct (a / 10000 =? b / 10000); [by rewrite abs_diff_comm|].
  rewrite (sorted_pair_comm (b / 10000)), (abs_diff_comm (b / 10000)).
  by rewrite (abs_diff_comm (b mod 10000)).
Qed.

(** ** Data model: rows, frames, boolean series, query plans *)

(** Exceptions the engine can raise. *)
Inductive exn : Type :=
| KeyError (key : string)
| IndexError.

(** A computation that returns a value or raises. *)
Definition result (A : Type) : Type := exn + A.

Definition raise {A} (e : exn) : result A := inl e.

#[global] Instance result_ret : MRet result := λ A a, inr a.
#[global] Instance result_bind : MBind result := λ A B k m,
  match m with
  | inl e => inl e
  | inr a => k a
  end.
#[global] Instance result_fmap : FMap result := λ A B f m,
  match m with
  | inl e => inl e
  | inr a => inr (f a)
  end.

(** One record of a dataset (a pandas row [Series], or the [dict] made from
    it). Every cell loaded from a file is a string ([load_data] ends with
    [astype(str)]); the only numeric entry a row ever gets is [_distance],
    kept in its own field. *)
Record Row : Type := mkRow {
  cells : gmap string string;
  _distance : option Q
}.

(** [row.get(col, '')], and [str(...)] of it *)
Definition row_get (r : Row) (col : string) : string :=
  default "" (cells r !! col).

(** [clinic_data = dict(row); clinic_data['_distance'] = d] *)
Definition with_distance (r : Row) (d : Q) : Row :=
  {| cells := delete "_distance" (cells r); _distance := Some d |}.

(** A [DataFrame]: its columns, and its rows in order, each with its index
    label. Filtering keeps the labels of the rows that survive. *)
Record DataFrame : Type := mkFrame {
  columns : list string;
  rows : list (nat * Row)
}.

(** [col in df.columns] *)
Definition has_column (df : DataFrame) (col : string) : bool :=
  bool_decide (col ∈ columns df).

(** [df.empty]: true when either axis has length 0. *)
Definition df_empty (df : DataFrame) : bool :=
  match columns df, rows df with
  | _ :: _, _ :: _ => false
  | _, _ => true
  end.

(** [enumerate]: positions from [i] on. *)
Fixpoint enumerate_from {A} (i : nat) (l : list A) : list (nat * A) :=
  match l with
  | [] => []
  | x :: l' => (i, x) :: enumerate_from (S i) l'
  end.

(** A frame as [load_data] or [pd.DataFrame(records)] builds it: the default
    [RangeIndex] 0, 1, ..., n-1. *)
Definition frame (cols : list string) (rs : list Row) : DataFrame :=
  {| columns := cols; rows := enumerate_from 0 rs |}.

(** [pd.DataFrame()] *)
Definition empty_frame : DataFrame := {| columns := []; rows := [] |}.

(** [[row for _, row in df.iterrows()]] *)
Definition iterrows (df : DataFrame) : list Row := (rows df).*2.

(** A boolean [Series]: label to value. *)
Abbreviation Series := (gmap nat bool).

(** [pd.Series([False] * n)]: labels 0..n-1, all false. *)
Definition series_false (n : nat) : Series :=
  list_to_map (fmap (λ i, (i, false)) (seq 0 n)).

(** [a | b] on two boolean series. pandas aligns the operands on the union
    of their labels and fills the holes with NaN; a hole on the right counts
    as [False], a hole on the left makes the result [False] whatever the
    right operand holds. *)
Definition or_aligned (x y : option bool) : option bool :=
  match x, y with
  | Some a, Some b => Some (a || b)
  | Some a, None => Some a
  | None, Some _ => Some false
  | None, None => None
  end.

Definition series_or (a b : Series) : Series := merge or_aligned a b.

(** [s.any()] *)
Definition series_any (s : Series) : bool :=
  existsb snd (map_to_list s).

(** [df[mask]]: the rows whose label the mask maps to [True]. *)
Definition select (df : DataFrame) (mask : Series) : DataFrame :=
  {| columns := columns df;
     rows := filter (λ lr, mask !! lr.1 = Some true) (rows df) |}.

(** [pat] searched in [s] ignoring case, for a pattern without regular
    expression metacharacters. *)
Definition str_contains (pat s : string) : bool :=
  Py.contains (Py.lower pat) (Py.lower s).

(** [df[col].str.contains(pat, case=False, na=False)] *)
Definition contains_mask (df : DataFrame) (col pat : string) : Series :=
  list_to_map (fmap (λ lr, (lr.1, str_contains pat (row_get lr.2 col))) (rows df)).

(** The query plan returned by [think]: the parsed JSON object. *)
Record Plan : Type := mkPlan {
  intent : option string;
  filters : option (gmap string string);
  keywords : option string;
  reasoning : option string
}.

(** [not plan] for a plan object: the empty dict. *)
Definition plan_is_empty (p : Plan) : bool :=
  match intent p, filters p, keywords p, reasoning p with
  | None, None, None, None => true
  | _, _, _, _ => false
  end.

(** Second component of what [search] returns. *)
Inductive Meta : Type :=
| LoadError
| ThinkFailed
| PlanOf (p : Plan).

(** ** Stable sorting by a key *)

Section Sorting.
Context {A : Type} (leb : A → A → bool).

Fixpoint insert_sorted (x : A) (l : list A) : list A :=
  match l with
  | [] => [x]
  | y :: l' => if leb x y then x :: l else y :: insert_sorted x l'
  end.

(** A stable sort: equal elements keep their order. *)
Definition sort_by (l : list A) : list A := foldr insert_sorted [] l.
End Sorting.

(** ** The structured filter pipeline of [search] *)

(** The correction table for specialty names. *)
Definition specialty_corrections : gmap string string :=
  list_to_map
    [ ("General Practitioner", "General Medicine");
      ("GP", "General Medicine");
      ("Family Medicine", "Family & Community Medicine");
      ("Paediatric", "Family & Community Medicine");
      ("Pediatric", "Family & Community Medicine");
      ("ENT", "Otolaryngology");
      ("Orthopaedic", "Orthopaedic Surgery");
      ("Orthopedic", "Orthopaedic Surgery") ].

Definition fallback_specialties : list string :=
  [ "Family & Community Medicine"; "General Medicine";
    "Emergency Medicine"; "Internal Medicine" ].

Definition search_columns : list string :=
  [ "Specialty"; "Designation"; "Services" ].

(** [x in ['paediatric', 'pediatric']] *)
Definition is_paediatric (x : string) : bool :=
  String.eqb x "paediatric" || String.eqb x "pediatric".

(** The loop [for col in cols: if col in df.columns: m = m | df[col].str.contains(pat)]. *)
Definition or_columns (df : DataFrame) (cols : list string) (pat : string)
    (m : Series) : Series :=
  fold_left
    (λ m col, if has_column df col then series_or m (contains_mask df col pat) else m)
    cols m.

(** The loop [for pat in pats: if col in df.columns: m = m | df[col].str.contains(pat)]. *)
Definition or_patterns (df : DataFrame) (col : string) (pats : list string)
    (m : Series) : Series :=
  fold_left
    (λ m pat, if has_column df col then series_or m (contains_mask df col pat) else m)
    pats m.

(** [specialty_filter] after the correction table. *)
Definition corrected (specialty_filter : string) : string :=
  match specialty_corrections !! specialty_filter with
  | Some c => c
  | None => specialty_filter
  end.

(** The specialty stage; it runs first, so the working set is [target_df]. *)
Definition specialty_stage (target_df : DataFrame) (specialty_filter : string)
    : DataFrame :=
  let filtered_df := target_df in
  let specialty_filter := corrected specialty_filter in
  if is_paediatric (Py.lower specialty_filter) then
    let fallback_matches :=
      or_patterns filtered_df "Specialty" fallback_specialties
        (series_false (length (rows filtered_df))) in
    let filtered_df := select filtered_df fallback_matches in
    if df_empty filtered_df then
      let specialty_matches :=
        or_columns target_df search_columns specialty_filter
          (series_false (length (rows target_df))) in
      select target_df specialty_matches
    else filtered_df
  else
    let specialty_matches :=
      or_columns filtered_df search_columns specialty_filter
        (series_false (length (rows filtered_df))) in
    select filtered_df specialty_matches.

(** The language stage (entered when the filter is set and the column exists). *)
Definition language_stage (filtered_df : DataFrame) (lang : string) : DataFrame :=
  let lang :=
    if String.eqb (Py.lower lang) "chinese" || String.eqb (Py.lower lang) "mandarin"
    then "Mandarin" else lang in
  select filtered_df (contains_mask filtered_df "Languages" lang).

(** [loc_key.isdigit() and len(loc_key) == 6] *)
Definition is_postal (loc_key : string) : bool :=
  Py.isdigit loc_key && (String.length loc_key =? 6)%nat.

(** [s[n:]] *)
Fixpoint drop_chars (n : nat) (s : string) : string :=
  match n, s with
  | O, _ => s
  | S n', String _ s' => drop_chars n' s'
  | S _, EmptyString => EmptyString
  end.

Fixpoint skip_spaces (s : string) : string :=
  match s with
  | String c s' => if Py.is_space c then skip_spaces s' else s
  | EmptyString => EmptyString
  end.

(** The pattern [Singapore\s+(\d{6})] tried at the start of [s]: the group,
    when it matches. The run of spaces is taken whole: a digit is never a
    space, so giving some back cannot help. *)
Definition match_postal_at (s : string) : option string :=
  if Py.startswith "Singapore" s then
    match drop_chars 9 s with
    | String c rest =>
        if Py.is_space c then
          let digits := substring 0 6 (skip_spaces rest) in
          if (String.length digits =? 6)%nat && Py.all_digits digits
          then Some digits else None
        else None
    | EmptyString => None
    end
  else None.

(** [re.search(r'Singapore\s+(\d{6})', address)]: the leftmost match, then
    [int(postal_match.group(1))]. *)
Fixpoint extract_postal (address : string) : option Z :=
  match match_postal_at address with
  | Some digits => Some (Py.int digits)
  | None =>
      match address with
      | String _ s' => extract_postal s'
      | EmptyString => None
      end
  end.

(** The key [x['_distance']] of a record built by the postal stage. *)
Definition distance_key (r : Row) : Q := default 0%Q (_distance r).

(** Columns of [pd.DataFrame(records)] for records made from rows of [df]
    with the key [_distance] set. *)
Definition columns_with_distance (df : DataFrame) : list string :=
  if has_column df "_distance" then columns df
  else columns df ++ ["_distance"].

(** The loop over [filtered_df.iterrows()] that collects [clinic_distances]. *)
Definition collect_distances (query_postal : Z) (rs : list (nat * Row)) : list Row :=
  fold_left
    (λ clinic_distances lr,
       let address := row_get lr.2 "Address" in
       match extract_postal address with
       | Some clinic_postal =>
           let distance := calculate_postal_distance query_postal clinic_postal in
           clinic_distances ++ [with_distance lr.2 distance]
       | None => clinic_distances
       end)
    rs [].

(** Clinic search by postal code. *)
Definition postal_stage (filtered_df : DataFrame) (loc_key : string) : DataFrame :=
  let query_postal := Py.int loc_key in
  let clinic_distances := collect_distances query_postal (rows filtered_df) in
  match clinic_distances with
  | _ :: _ =>
      let sorted := sort_by (λ x y, Qle_bool (distance_key x) (distance_key y))
                      clinic_distances in
      let closest_clinics := take 20 sorted in
      frame (columns_with_distance filtered_df) closest_clinics
  | [] => empty_frame
  end.

(** The adjacency table of area names. *)
Definition nearby_areas : gmap string (list string) :=
  list_to_map
    [ ("bedok", ["tampines"; "pasir ris"; "changi"]);
      ("tampines", ["bedok"; "pasir ris"; "sengkang"]);
      ("yishun", ["woodlands"; "sembawang"; "ang mo kio"]);
      ("woodlands", ["yishun"; "sembawang"; "choa chu kang"]);
      ("jurong west", ["jurong east"; "choa chu kang"; "bukit batok"]);
      ("sengkang", ["punggol"; "tampines"; "serangoon"]);
      ("punggol", ["sengkang"; "tampines"; "serangoon"]);
      ("ang mo kio", ["yishun"; "serangoon"; "bishan"]);
      ("serangoon", ["ang mo kio"; "sengkang"; "bishan"]) ].

(** Masks 1 and 2 of the area-name search: Area column, then Address column. *)
Definition direct_matches (filtered_df : DataFrame) (loc_key : string) : Series :=
  let location_matches := series_false (length (rows filtered_df)) in
  let location_matches :=
    if has_column filtered_df "Area"
    then series_or location_matches (contains_mask filtered_df "Area" loc_key)
    else location_matches in
  if has_column filtered_df "Address"
  then series_or location_matches (contains_mask filtered_df "Address" loc_key)
  else location_matches.

(** Clinic search by area name. *)
Definition area_stage (filtered_df : DataFrame) (loc_key : string) : DataFrame :=
  let location_matches := direct_matches filtered_df loc_key in
  let location_matches :=
    if negb (series_any location_matches) then
      let loc_key_lower := Py.lower loc_key in
      match nearby_areas !! loc_key_lower with
      | Some nearby_list =>
          or_patterns filtered_df "Area" nearby_list location_matches
      | None => location_matches
      end
    else location_matches in
  select filtered_df location_matches.

(** Location filter of a doctor search. *)
Definition doctor_location_stage (filtered_df : DataFrame) (loc_key : string)
    : DataFrame :=
  let col_to_search := if has_column filtered_df "Area" then "Area" else "Address" in
  if has_column filtered_df col_to_search
  then select filtered_df (contains_mask filtered_df col_to_search loc_key)
  else filtered_df.

(** [plan.get('intent', 'find_doctor')], [plan.get('filters', {})],
    [plan.get('keywords', '')] *)
Definition plan_intent (p : Plan) : string := default "find_doctor" (intent p).
Definition plan_filters (p : Plan) : gmap string string := default ∅ (filters p).
Definition plan_keywords (p : Plan) : string := default "" (keywords p).

(** The location stage: clinic searches go by postal code or area name,
    doctor searches by a plain column match. *)
Definition location_stage (intent : string) (loc_key : option string)
    (filtered_df : DataFrame) : DataFrame :=
  if Py.truthy loc_key && String.eqb intent "find_clinic" then
    if is_postal (default "" loc_key)
    then postal_stage filtered_df (default "" loc_key)
    else area_stage filtered_df (default "" loc_key)
  else if Py.truthy loc_key && String.eqb intent "find_doctor" then
    doctor_location_stage filtered_df (default "" loc_key)
  else filtered_df.

(** Step 2 of [search]: the three filter stages in sequence. *)
Definition filter_pipeline (intent : string) (filters : gmap string string)
    (target_df : DataFrame) : DataFrame :=
  let filtered_df := target_df in
  let filtered_df :=
    if Py.truthy (filters !! "Specialty")
    then specialty_stage target_df (default "" (filters !! "Specialty"))
    else filtered_df in
  let filtered_df :=
    if Py.truthy (filters !! "Languages") && has_column filtered_df "Languages"
    then language_stage filtered_df (default "" (filters !! "Languages"))
    else filtered_df in
  let loc_key := filters !! "Area" in
  location_stage intent loc_key filtered_df.

(** ** Step 3 of [search]: ranking and assembly *)

(** The loop that sorts the rows of a clinic search into the three lists
    [exact_area], [exact_address], [nearby_area]. *)
Definition tier_step (loc_key : string)
    (acc : list Row * list Row * list Row) (row : Row)
    : list Row * list Row * list Row :=
  let '(exact_area, exact_address, nearby_area) := acc in
  let area := Py.lower (row_get row "Area") in
  let address := Py.lower (row_get row "Address") in
  let loc_lower := Py.lower loc_key in
  if Py.contains loc_lower area then (exact_area ++ [row], exact_address, nearby_area)
  else if Py.contains loc_lower address then (exact_area, exact_address ++ [row], nearby_area)
  else (exact_area, exact_address, nearby_area ++ [row]).

Definition rank_clinics (loc_key : string) (filtered_df : DataFrame) : list Row :=
  let '(exact_area, exact_address, nearby_area) :=
    fold_left (tier_step loc_key) (iterrows filtered_df) ([], [], []) in
  take 10 exact_area ++ take 5 exact_address ++ take 5 nearby_area.

(** The scorers of the rapidfuzz library, which the engine calls and does not
    define: each maps two strings to a score between 0 and 100. *)
Class RapidFuzz : Type := {
  token_set_ratio : string → string → Q;
  partial_ratio : string → string → Q;
  token_sort_ratio : string → string → Q;
  ratio : string → string → Q
}.

(** [x > y] on scores *)
Definition Qgtb (x y : Q) : bool := negb (Qle_bool x y).

(** A match [(name, score, idx)]. *)
Definition Match : Type := string * Q * nat.

Definition match_score (m : Match) : Q := m.1.2.

(** [process.extract(query, choices, limit=limit, scorer=scorer)]: every
    choice scored, best first, ties in list order, cut at [limit]. *)
Definition extract (scorer : string → string → Q) (query : string)
    (choices : list string) (limit : nat) : list Match :=
  take limit
    (sort_by (λ x y, Qle_bool (match_score y) (match_score x))
       (fmap (λ ic, (ic.2, scorer query ic.2, ic.1)) (enumerate_from 0 choices))).

(** [min(l)] of a non-empty list; [sum(l)] *)
Definition Qmin_list (l : list Q) : Q :=
  match l with
  | [] => 0%Q
  | x :: l' => fold_left Qmin l' x
  end.

Definition Qsum (l : list Q) : Q := fold_left Qplus l 0%Q.

Inductive strategy : Type := token_set | partial | token_sort | multi_word.

(** A dict keyed by name, in insertion order. *)
Fixpoint dict_get {V} (d : list (string * V)) (k : string) : option V :=
  match d with
  | [] => None
  | (k', v) :: d' => if String.eqb k k' then Some v else dict_get d' k
  end.

Fixpoint dict_set {V} (d : list (string * V)) (k : string) (v : V)
    : list (string * V) :=
  match d with
  | [] => [(k, v)]
  | (k', v') :: d' =>
      if String.eqb k k' then (k, v) :: d' else (k', v') :: dict_set d' k v
  end.

(** The value [(weighted_score, idx, score)] kept for a name. *)
Definition Best : Type := Q * nat * Q.

Definition weighted (strategy_name : strategy) (score : Q) : Q :=
  match strategy_name with
  | multi_word => if Qgtb score 50 then (score * (13 # 10))%Q else score
  | partial => if Qgtb score 80 then (score * (12 # 10))%Q else score
  | token_set => if Qgtb score 90 then (score * (11 # 10))%Q else score
  | token_sort => score
  end.

(** The inner loop of the fusion, for the matches of one strategy. *)
Definition fuse (strategy_name : strategy) (matches : list Match)
    (all_matches : list (string * Best)) : list (string * Best) :=
  fold_left
    (λ all_matches m,
       let '(name, score, idx) := m in
       if Qgtb score 25 then
         let weighted_score := weighted strategy_name score in
         match dict_get all_matches name with
         | Some best =>
             if Qgtb weighted_score best.1.1
             then dict_set all_matches name (weighted_score, idx, score)
             else all_matches
         | None => dict_set all_matches name (weighted_score, idx, score)
         end
       else all_matches)
    matches all_matches.

(** The test that puts a fused candidate in the exact tier. *)
Definition is_exact (keywords name : string) : bool :=
  let name_lower := Py.lower name in
  let keywords_lower := Py.lower keywords in
  let name_parts := Py.split name_lower in
  existsb (λ part, String.eqb keywords_lower part || Py.startswith keywords_lower part)
    name_parts.

(** The loop that splits [sorted_matches] into [exact_matches] and
    [fuzzy_matches]. *)
Definition partition_matches (keywords : string)
    (sorted_matches : list (string * Best)) : list Match * list Match :=
  fold_left
    (λ acc item,
       let '(exact_matches, fuzzy_matches) := acc in
       let '(name, (weighted_score, idx, original_score)) := item in
       if is_exact keywords name
       then (exact_matches ++ [(name, weighted_score, idx)], fuzzy_matches)
       else (exact_matches, fuzzy_matches ++ [(name, weighted_score, idx)]))
    sorted_matches ([], []).

Definition select_final (exact_matches fuzzy_matches : list Match) : list Match :=
  if (3 <=? length exact_matches)%nat then take 5 exact_matches
  else
    let high_quality_fuzzy := filter (λ m, Qgtb (match_score m) 60 = true) fuzzy_matches in
    exact_matches ++ take 3 high_quality_fuzzy.

(** [filtered_df.iloc[idx]] *)
Definition iloc (df : DataFrame) (idx : nat) : result Row :=
  match rows df !! idx with
  | Some lr => mret lr.2
  | None => raise IndexError
  end.

(** [filtered_df['Name'].tolist()] *)
Definition name_column (df : DataFrame) : result (list string) :=
  if has_column df "Name"
  then mret (fmap (λ r, row_get r "Name") (iterrows df))
  else raise (KeyError "Name").

(** The last-resort scan: rows whose name contains the keyword, stopping at
    the tenth. *)
Fixpoint substring_scan (keywords : string) (rs : list Row) (results : list Row)
    : list Row :=
  match rs with
  | [] => results
  | row :: rs' =>
      let name := Py.lower (row_get row "Name") in
      if Py.contains (Py.lower keywords) name then
        let results := results ++ [row] in
        if (10 <=? length results)%nat then results
        else substring_scan keywords rs' results
      else substring_scan keywords rs' results
  end.

Section Fuzzy.
Context `{RapidFuzz}.

(** Strategy 4, inner loops: the best score of one keyword word against
    the words of a name. *)
Definition best_word (kw : string) (name_words : list string) : Q :=
  fold_left
    (λ best_word_score nw,
       if (3 <=? String.length kw)%nat then
         if Py.contains kw nw || Py.contains nw kw
         then Qmax best_word_score 80
         else Qmax best_word_score (ratio kw nw)
       else best_word_score)
    name_words 0%Q.

(** Strategy 4: [multi_word_matches]. *)
Definition multi_word_matches (keywords : string) (names : list string)
    : list Match :=
  let keywords_words := Py.split (Py.lower keywords) in
  fold_left
    (λ acc iname,
       let name_words := Py.split (Py.lower iname.2) in
       let word_match_scores := fmap (λ kw, best_word kw name_words) keywords_words in
       if (0 <? length word_match_scores)%nat && Qgtb (Qmin_list word_match_scores) 35
       then
         let avg_score :=
           (Qsum word_match_scores / inject_Z (Z.of_nat (length word_match_scores)))%Q in
         acc ++ [(iname.2, avg_score, iname.1)]
       else acc)
    (enumerate_from 0 names) [].

(** [all_matches] after the four strategies are merged. *)
Definition fused (keywords : string) (names : list string) : list (string * Best) :=
  let matches1 := extract token_set_ratio keywords names 20 in
  let matches2 := extract partial_ratio keywords names 20 in
  let matches3 := extract token_sort_ratio keywords names 20 in
  let matches4 := multi_word_matches keywords names in
  fuse multi_word matches4
    (fuse token_sort matches3
       (fuse partial matches2
          (fuse token_set matches1 []))).

(** [exact_matches] and [fuzzy_matches] for a keyword and a name list. *)
Definition tiers (keywords : string) (names : list string)
    : list Match * list Match :=
  let sorted_matches :=
    sort_by (λ x y : string * Best, Qle_bool y.2.1.1 x.2.1.1) (fused keywords names) in
  partition_matches keywords sorted_matches.

(** The doctor search by name (the branch [keywords and len(keywords) > 1]). *)
Definition doctor_name_search (keywords : string) (filtered_df : DataFrame)
    : result (list Row) :=
  names ← name_column filtered_df;
  let '(exact_matches, fuzzy_matches) := tiers keywords names in
  let final_matches := select_final exact_matches fuzzy_matches in
  results ← mapM (λ m : Match, iloc filtered_df m.2) (take 5 final_matches);
  match results with
  | [] => mret (substring_scan keywords (iterrows filtered_df) [])
  | _ :: _ => mret results
  end.

(** Step 3 of [search]. *)
Definition rank (intent : string) (loc_key : option string) (keywords : string)
    (filtered_df : DataFrame) : result (list Row) :=
  if negb (df_empty filtered_df) then
    if String.eqb intent "find_clinic" then
      if Py.truthy loc_key
      then mret (rank_clinics (default "" loc_key) filtered_df)
      else mret (take 15 (iterrows filtered_df))
    else if negb (String.eqb keywords "") && (1 <? String.length keywords)%nat then
      doctor_name_search keywords filtered_df
    else
      let limit := if String.eqb intent "find_doctor" then 10%nat else 15%nat in
      mret (take limit (iterrows filtered_df))
  else mret [].

(** [search], with [thought] the value [self.think(query)] returned. *)
Definition search (df_c df_d : option DataFrame) (thought : option Plan)
    : result (list Row * Meta) :=
  match df_c, df_d with
  | Some df_c, Some df_d =>
      match thought with
      | Some plan =>
          if plan_is_empty plan then mret ([], ThinkFailed)
          else
            let intent := plan_intent plan in
            let filters := plan_filters plan in
            let keywords := plan_keywords plan in
            let target_df := if String.eqb intent "find_clinic" then df_c else df_d in
            let filtered_df := filter_pipeline intent filters target_df in
            let loc_key := filters !! "Area" in
            results ← rank intent loc_key keywords filtered_df;
            mret (results, PlanOf plan)
      | None => mret ([], ThinkFailed)
      end
  | _, _ => mret ([], LoadError)
  end.

End Fuzzy.

(** * Properties *)

(** ** Frames with the default index, and masks over them *)

(** The labels are the positions 0..n-1, as in a frame that was just loaded
    or built from records. *)
Definition range_indexed (df : DataFrame) : Prop :=
  (rows df).*1 = seq 0 (length (rows df)).

Lemma enumerate_from_fst {A} i (l : list A) :
  (enumerate_from i l).*1 = seq i (length l).
Proof. revert i. induction l as [|x l IH]; intros i; csimpl; [done|by rewrite IH]. Qed.

Lemma enumerate_from_snd {A} i (l : list A) : (enumerate_from i l).*2 = l.
Proof. revert i. induction l as [|x l IH]; intros i; csimpl; [done|by rewrite IH]. Qed.

Lemma enumerate_from_length {A} i (l : list A) :
  length (enumerate_from i l) = length l.
Proof. by rewrite <-(length_fmap fst), enumerate_from_fst, length_seq. Qed.

Lemma frame_range_indexed cols rs : range_indexed (frame cols rs).
Proof.
  unfold range_indexed, frame; simpl.
  by rewrite enumerate_from_fst, enumerate_from_length.
Qed.

Lemma iterrows_frame cols rs : iterrows (frame cols rs) = rs.
Proof. apply enumerate_from_snd. Qed.

Lemma range_indexed_lookup df l lr :
  range_indexed df → rows df !! l = Some lr → lr.1 = l.
Proof.
  intros Hr Hl.
  assert ((rows df).*1 !! l = Some lr.1) as Hf by by rewrite list_lookup_fmap, Hl.
  rewrite Hr in Hf. apply lookup_seq in Hf. lia.
Qed.

Lemma range_indexed_NoDup df : range_indexed df → NoDup (rows df).*1.
Proof. intros ->. apply NoDup_seq. Qed.

(** [m] is the mask of the row predicate [P] over [df]. *)
Definition mask_of (df : DataFrame) (P : Row → bool) (m : Series) : Prop :=
  ∀ l, m !! l = (λ lr : nat * Row, P lr.2) <$> (rows df !! l).

Lemma series_false_lookup n l :
  series_false n !! l = if decide (l < n)%nat then Some false else None.
Proof.
  unfold series_false. case_decide as Hl.
  - apply elem_of_list_to_map_1.
    + rewrite <-list_fmap_compose. rewrite (list_fmap_ext _ id (seq 0 n)) by done.
      rewrite list_fmap_id. apply NoDup_seq.
    + apply list_elem_of_fmap. exists l. split; [done|]. apply elem_of_seq. lia.
  - apply not_elem_of_list_to_map_1.
    rewrite <-list_fmap_compose. rewrite (list_fmap_ext _ id (seq 0 n)) by done.
    rewrite list_fmap_id, elem_of_seq. lia.
Qed.

Lemma series_false_mask df :
  mask_of df (λ _, false) (series_false (length (rows df))).
Proof.
  intros l. rewrite series_false_lookup. case_decide as Hl.
  - destruct (lookup_lt_is_Some_2 (rows df) l Hl) as [lr ->]. done.
  - by rewrite lookup_ge_None_2 by lia.
Qed.

Lemma contains_mask_lookup df col pat l :
  NoDup (rows df).*1 →
  contains_mask df col pat !! l =
    match list_find (λ lr : nat * Row, lr.1 = l) (rows df) with
    | Some (_, lr) => Some (str_contains pat (row_get lr.2 col))
    | None => None
    end.
Proof.
  intros Hnd. unfold contains_mask.
  destruct (list_find _ _) as [[i lr]|] eqn:Hf.
  - apply list_find_Some in Hf as (Hi & <- & _).
    apply elem_of_list_to_map_1.
    + by rewrite <-list_fmap_compose.
    + apply list_elem_of_fmap. exists lr. split; [done|].
      by eapply list_elem_of_lookup_2.
  - apply not_elem_of_list_to_map_1. rewrite <-list_fmap_compose.
    rewrite list_find_None in Hf. intros (lr & -> & Hin)%list_elem_of_fmap.
    rewrite Forall_forall in Hf. by apply (Hf lr).
Qed.

Lemma contains_mask_mask df col pat :
  range_indexed df →
  mask_of df (λ r, str_contains pat (row_get r col)) (contains_mask df col pat).
Proof.
  intros Hr l. rewrite contains_mask_lookup by by apply range_indexed_NoDup.
  destruct (rows df !! l) as [lr|] eqn:Hl; simpl.
  - pose proof (range_indexed_lookup _ _ _ Hr Hl) as Hlab.
    destruct (list_find _ _) as [[i lr']|] eqn:Hf.
    + apply list_find_Some in Hf as (Hi & Hlab' & _).
      assert (i = l) as ->.
      { eapply NoDup_lookup; [by apply range_indexed_NoDup| |].
        - by rewrite list_lookup_fmap, Hi.
        - rewrite list_lookup_fmap, Hl. simpl. congruence. }
      congruence.
    + rewrite list_find_None, Forall_forall in Hf.
      destruct (Hf lr); [by eapply list_elem_of_lookup_2|done].
  - destruct (list_find _ _) as [[i lr']|] eqn:Hf; [|done].
    apply list_find_Some in Hf as (Hi & Hlab' & _).
    pose proof (range_indexed_lookup _ _ _ Hr Hi) as Hlab.
    apply lookup_lt_Some in Hi. apply lookup_ge_None in Hl. lia.
Qed.

Lemma series_or_mask df P Q a b :
  mask_of df P a → mask_of df Q b →
  mask_of df (λ r, P r || Q r) (series_or a b).
Proof.
  intros Ha Hb l. unfold series_or. rewrite lookup_merge, Ha, Hb.
  by destruct (rows df !! l).
Qed.

Lemma mask_of_ext df P Q m :
  (∀ r, P r = Q r) → mask_of df P m → mask_of df Q m.
Proof.
  intros HPQ Hm l. rewrite Hm. destruct (rows df !! l); simpl; [|done].
  by rewrite HPQ.
Qed.

Lemma or_columns_mask df cols pat P m :
  range_indexed df → mask_of df P m →
  mask_of df
    (λ r, P r || existsb (λ col, has_column df col && str_contains pat (row_get r col)) cols)
    (or_columns df cols pat m).
Proof.
  intros Hr. unfold or_columns. revert P m.
  induction cols as [|col cols IH]; intros P m Hm; simpl.
  - eapply mask_of_ext; [|done]. intros r. by rewrite orb_false_r.
  - destruct (has_column df col) eqn:Hc; simpl.
    + eapply mask_of_ext; [|apply IH, series_or_mask, contains_mask_mask; done].
      intros r; simpl. by rewrite orb_assoc.
    + eapply mask_of_ext; [|by apply IH]. done.
Qed.

Lemma or_patterns_mask df col pats P m :
  range_indexed df → mask_of df P m →
  mask_of df
    (λ r, P r || has_column df col && existsb (λ pat, str_contains pat (row_get r col)) pats)
    (or_patterns df col pats m).
Proof.
  intros Hr. unfold or_patterns. revert P m.
  induction pats as [|pat pats IH]; intros P m Hm; simpl.
  - eapply mask_of_ext; [|done]. intros r. by rewrite andb_false_r, orb_false_r.
  - destruct (has_column df col) eqn:Hc; simpl.
    + eapply mask_of_ext; [|apply IH, series_or_mask, contains_mask_mask; done].
      intros r; simpl. by rewrite orb_assoc.
    + eapply mask_of_ext; [|by apply IH]. done.
Qed.

Lemma select_mask df P m :
  range_indexed df → mask_of df P m →
  rows (select df m) = filter (λ lr : nat * Row, P lr.2) (rows df).
Proof.
  intros Hr Hm. unfold select; simpl.
  assert (Forall (λ lr : nat * Row, m !! lr.1 = Some (P lr.2)) (rows df)) as Hall.
  { apply Forall_forall. intros lr [i Hi]%list_elem_of_lookup.
    rewrite (range_indexed_lookup _ _ _ Hr Hi), Hm, Hi. done. }
  induction Hall as [|lr l Hlr _ IH]; [done|].
  rewrite !filter_cons, IH, Hlr.
  destruct (P lr.2); repeat case_decide; naive_solver.
Qed.

Lemma filter_snd {A B} (P : B → bool) (l : list (A * B)) :
  (filter (λ lr : A * B, P lr.2) l).*2 = filter (λ r, P r) l.*2.
Proof.
  induction l as [|x l IH]; [done|]. csimpl.
  rewrite !filter_cons. destruct (P x.2); simpl; repeat case_decide; try done.
  f_equal. exact IH.
Qed.

Lemma iterrows_select df P m :
  range_indexed df → mask_of df P m →
  iterrows (select df m) = filter (λ r, P r) (iterrows df).
Proof.
  intros Hr Hm. unfold iterrows. rewrite (select_mask _ P) by done.
  apply filter_snd.
Qed.

Lemma series_any_mask df P m :
  mask_of df P m → series_any m = existsb P (iterrows df).
Proof.
  intros Hm. apply eq_true_iff_eq. unfold series_any, iterrows.
  rewrite !existsb_exists. split.
  - intros ([l b] & Hin & Hb). simpl in Hb. subst b.
    apply list_elem_of_In, elem_of_map_to_list in Hin.
    rewrite Hm in Hin. destruct (rows df !! l) as [lr|] eqn:Hl; [|done].
    exists lr.2. split; [|by simplify_eq/=].
    apply list_elem_of_In, list_elem_of_fmap. exists lr. split; [done|].
    by eapply list_elem_of_lookup_2.
  - intros (r & Hin & Hr).
    apply list_elem_of_In, list_elem_of_fmap in Hin as (lr & -> & Hin).
    apply list_elem_of_lookup in Hin as [l Hl].
    exists (l, true). split; [|done].
    apply list_elem_of_In, elem_of_map_to_list. rewrite Hm, Hl. simpl.
    by rewrite Hr.
Qed.

Lemma df_empty_true df :
  df_empty df = true ↔ columns df = [] ∨ rows df = [].
Proof.
  unfold df_empty.
  destruct (columns df), (rows df); split; auto; intros Hor;
    try done; by destruct Hor.
Qed.

Lemma iterrows_nil df : iterrows df = [] ↔ rows df = [].
Proof. unfold iterrows. split; [apply fmap_nil_inv|by intros ->]. Qed.

(** ** The specialty stage on paediatric filters (C1) *)

(** The paediatric branch as the specification words it: a row is kept when
    some fallback specialty occurs in its Specialty, Designation or Services
    column. *)
Definition paediatric_rows_spec (cols : list string) (rs : list Row) : list Row :=
  filter
    (λ r, existsb
            (λ fb, existsb
                     (λ col, bool_decide (col ∈ cols) && str_contains fb (row_get r col))
                     search_columns)
            fallback_specialties)
    rs.

(** Build a row from its cells. *)
Definition record (kvs : list (string * string)) : Row :=
  {| cells := list_to_map kvs; _distance := None |}.

Definition doctor_columns : list string :=
  [ "Name"; "Specialty"; "Languages"; "Services"; "Qualifications"; "Designation" ].

Definition doctor (name specialty languages services designation : string) : Row :=
  record [ ("Name", name); ("Specialty", specialty); ("Languages", languages);
           ("Services", services); ("Qualifications", ""); ("Designation", designation) ].

(** Two doctors: a general physician, and a cardiologist whose designation
    mentions internal medicine. *)
Definition two_doctors : list Row :=
  [ doctor "Tan Wei Ming" "General Medicine" "English" "" "Consultant";
    doctor "Low Kim Seng" "Cardiology" "English" "" "Consultant, Internal Medicine" ].

Example paediatric_two_doctors :
  fmap (λ r, row_get r "Name")
    (iterrows (specialty_stage (frame doctor_columns two_doctors) "paediatric"))
  = ["Tan Wei Ming"]
  ∧ fmap (λ r, row_get r "Name") (paediatric_rows_spec doctor_columns two_doctors)
  = ["Tan Wei Ming"; "Low Kim Seng"].
Proof. split; vm_compute; reflexivity. Qed.

(** C1, as stated, fails: on [two_doctors] the filter "paediatric" keeps only
    the doctor whose Specialty column names a fallback specialty, not the
    one whose Designation does. *)
Lemma paediatric_all_columns_counterexample :
  iterrows (specialty_stage (frame doctor_columns two_doctors) "paediatric")
  ≠ paediatric_rows_spec doctor_columns two_doctors.
Proof.
  intros Heq. apply (f_equal length) in Heq. vm_compute in Heq. discriminate.
Qed.

(** C1, amended. When the corrected filter is "paediatric" or "pediatric"
    (any case), the stage keeps the rows whose Specialty column contains one
    of the four fallback specialties (Designation and Services are not
    consulted for them); only when no row is kept does it search the literal
    label in Specialty, Designation and Services of the dataset. *)
Theorem paediatric_specialty_column_only cols rs specialty_filter :
  is_paediatric (Py.lower (corrected specialty_filter)) = true →
  iterrows (specialty_stage (frame cols rs) specialty_filter) =
    match
      filter (λ r, bool_decide ("Specialty" ∈ cols) &&
                   existsb (λ fb, str_contains fb (row_get r "Specialty"))
                     fallback_specialties) rs
    with
    | r :: kept => r :: kept
    | [] =>
        filter (λ r, existsb
                       (λ col, bool_decide (col ∈ cols) &&
                               str_contains (corrected specialty_filter) (row_get r col))
                       search_columns) rs
    end.
Proof.
  intros Hp. unfold specialty_stage. rewrite Hp.
  pose proof (frame_range_indexed cols rs) as Hr.
  pose proof (or_patterns_mask (frame cols rs) "Specialty" fallback_specialties _ _ Hr
                (series_false_mask (frame cols rs))) as Hm.
  pose proof (iterrows_select _ _ _ Hr Hm) as Hsel.
  rewrite iterrows_frame in Hsel.
  change (filter _ rs) with
    (filter (λ r, bool_decide ("Specialty" ∈ cols) &&
                  existsb (λ fb, str_contains fb (row_get r "Specialty"))
                    fallback_specialties) rs) in Hsel.
  destruct (filter _ rs) as [|r kept] eqn:Hkept.
  - rewrite (proj2 (df_empty_true _)) by (right; by apply iterrows_nil).
    pose proof (or_columns_mask (frame cols rs) search_columns
                  (corrected specialty_filter) _ _ Hr
                  (series_false_mask (frame cols rs))) as Hm'.
    by rewrite (iterrows_select _ _ _ Hr Hm'), iterrows_frame.
  - rewrite (not_true_is_false (df_empty _)); [exact Hsel|].
    rewrite df_empty_true. intros [Hc|Hrows].
    + simpl in Hc. subst cols.
      assert (r ∈ r :: kept) as Hin by left.
      rewrite <-Hkept in Hin. apply list_elem_of_filter in Hin as [Hin _].
      by rewrite bool_decide_eq_false_2 in Hin by apply not_elem_of_nil.
    + apply iterrows_nil in Hrows. by rewrite Hsel in Hrows.
Qed.

Lemma paediatric_specialty_column_only_witness :
  is_paediatric (Py.lower (corrected "paediatric")) = true
  ∧ fmap (λ r, row_get r "Name")
      (iterrows (specialty_stage (frame doctor_columns two_doctors) "paediatric"))
    = ["Tan Wei Ming"].
Proof.
  split; [reflexivity|].
  rewrite (paediatric_specialty_column_only doctor_columns two_doctors "paediatric");
    [|reflexivity].
  vm_compute. reflexivity.
Defined.

(** ** A scorer instance for closed examples *)

(** Length of a longest common subsequence. *)
Fixpoint lcs (a b : list ascii) : nat :=
  match a with
  | [] => 0%nat
  | x :: a' =>
      (fix go (b : list ascii) : nat :=
         match b with
         | [] => 0%nat
         | y :: b' =>
             if Ascii.eqb x y then S (lcs a' b')
             else Nat.max (lcs a' b) (go b')
         end) b
  end.

(** The normalised Indel similarity, in percent: what [fuzz.ratio] computes
    (no preprocessing, so the comparison is case-sensitive). *)
Definition indel_ratio (a b : string) : Q :=
  let la := String.length a in
  let lb := String.length b in
  match (la + lb)%nat with
  | O => 100%Q
  | S n =>
      Qmake (200 * Z.of_nat (lcs (list_ascii_of_string a) (list_ascii_of_string b)))
            (Pos.of_succ_nat n)
  end.

(** Stand-in scorers to run the engine on concrete inputs: all four are the
    Indel similarity. rapidfuzz's token and partial scorers also score 0 on
    two strings without a common character, which is the only fact about
    them the closed examples below depend on; the general theorems hold for
    any scorers. *)
Definition indel_scorers : RapidFuzz :=
  {| token_set_ratio := indel_ratio;
     partial_ratio := indel_ratio;
     token_sort_ratio := indel_ratio;
     ratio := indel_ratio |}.

(** ** The clinic assembler (C5) *)

(** The row's Area contains the location (ignoring case). *)
Definition in_area (loc_key : string) (row : Row) : bool :=
  Py.contains (Py.lower loc_key) (Py.lower (row_get row "Area")).

(** The row's Address contains the location (ignoring case). *)
Definition in_address (loc_key : string) (row : Row) : bool :=
  Py.contains (Py.lower loc_key) (Py.lower (row_get row "Address")).

Lemma tier_step_fold loc_key rs exact_area exact_address nearby_area :
  fold_left (tier_step loc_key) rs (exact_area, exact_address, nearby_area) =
    (exact_area ++ filter (λ r, in_area loc_key r) rs,
     exact_address ++ filter (λ r, negb (in_area loc_key r) && in_address loc_key r) rs,
     nearby_area ++ filter (λ r, negb (in_area loc_key r) && negb (in_address loc_key r)) rs).
Proof.
  revert exact_area exact_address nearby_area.
  induction rs as [|r rs IH]; intros a b c; simpl.
  - by rewrite !app_nil_r.
  - rewrite !filter_cons. fold (in_area loc_key r) (in_address loc_key r).
    destruct (in_area loc_key r), (in_address loc_key r); simpl;
      rewrite IH; repeat case_decide; try done; by rewrite <-?app_assoc.
Qed.

Lemma rank_clinics_tiers loc_key fdf :
  rank_clinics loc_key fdf =
    take 10 (filter (λ r, in_area loc_key r) (iterrows fdf)) ++
    take 5 (filter (λ r, negb (in_area loc_key r) && in_address loc_key r) (iterrows fdf)) ++
    take 5 (filter (λ r, negb (in_area loc_key r) && negb (in_address loc_key r))
              (iterrows fdf)).
Proof. unfold rank_clinics. by rewrite tier_step_fold. Qed.

(** C5. For a clinic query with a location filter and a non-empty filtered
    set, the assembler returns the rows whose Area contains the location
    (first 10), then the remaining rows whose Address contains it (first 5),
    then all other rows (first 5), each tier in dataset order. *)
Theorem clinic_tiers_capped `{RapidFuzz} loc_key keywords fdf :
  Py.truthy (Some loc_key) = true →
  df_empty fdf = false →
  rank "find_clinic" (Some loc_key) keywords fdf =
    inr (take 10 (filter (λ r, in_area loc_key r) (iterrows fdf)) ++
         take 5 (filter (λ r, negb (in_area loc_key r) && in_address loc_key r)
                   (iterrows fdf)) ++
         take 5 (filter (λ r, negb (in_area loc_key r) && negb (in_address loc_key r))
                   (iterrows fdf))).
Proof.
  intros Hloc Hne. unfold rank. rewrite Hne, Hloc. simpl.
  by rewrite rank_clinics_tiers.
Qed.

Definition clinic_columns : list string := [ "Name"; "Address"; "Area"; "Contact" ].

Definition clinic (name address area : string) : Row :=
  record [ ("Name", name); ("Address", address); ("Area", area); ("Contact", "") ].

Definition three_clinics : list Row :=
  [ clinic "North Clinic" "1 Yishun Ring Road Singapore 760001" "Yishun";
    clinic "Bedok Family Clinic" "2 Upper Changi Road Singapore 460002" "Bedok";
    clinic "East Clinic" "3 Bedok North Street 1 Singapore 460003" "Chai Chee" ].

Lemma clinic_tiers_capped_witness :
  Py.truthy (Some "Bedok") = true
  ∧ df_empty (frame clinic_columns three_clinics) = false
  ∧ fmap (M := result) (fmap (λ r, row_get r "Name"))
      (rank (H := indel_scorers) "find_clinic" (Some "Bedok") ""
         (frame clinic_columns three_clinics))
    = inr ["Bedok Family Clinic"; "East Clinic"; "North Clinic"].
Proof.
  split; [reflexivity|]. split; [reflexivity|].
  rewrite (clinic_tiers_capped (H := indel_scorers) "Bedok" ""
             (frame clinic_columns three_clinics)); [|reflexivity|reflexivity].
  vm_compute. reflexivity.
Defined.

(** ** Doctor searches without a usable keyword (C10) *)

Lemma select_columns df m : columns (select df m) = columns df.
Proof. done. Qed.

Lemma specialty_stage_columns df specialty_filter :
  columns (specialty_stage df specialty_filter) = columns df.
Proof.
  unfold specialty_stage.
  destruct (is_paediatric _); [destruct (df_empty _)|]; done.
Qed.

Lemma filter_pipeline_doctor_columns filters df :
  columns (filter_pipeline "find_doctor" filters df) = columns df.
Proof.
  unfold filter_pipeline, location_stage, language_stage, doctor_location_stage.
  rewrite andb_false_r, andb_true_r.
  repeat match goal with
         | |- context [if ?b then _ else _] => destruct b
         end; by rewrite ?select_columns, ?specialty_stage_columns.
Qed.

(** C10. A doctor query whose keyword has exactly one character never enters
    the fuzzy name search: it is ranked as the same query without a keyword,
    and returns the first 10 rows of the filtered set in dataset order
    (nothing when pandas reports the filtered set empty, which for a dataset
    with at least one column means it has no rows). *)
Theorem single_character_keyword `{RapidFuzz} df_c df_d plan :
  plan_intent plan = "find_doctor" →
  String.length (plan_keywords plan) = 1%nat →
  let filtered_df := filter_pipeline "find_doctor" (plan_filters plan) df_d in
  let first_ten := if df_empty filtered_df then [] else take 10 (iterrows filtered_df) in
  rank "find_doctor" (plan_filters plan !! "Area") (plan_keywords plan) filtered_df
    = rank "find_doctor" (plan_filters plan !! "Area") "" filtered_df
  ∧ search (Some df_c) (Some df_d) (Some plan) = inr (first_ten, PlanOf plan)
  ∧ (columns df_d ≠ [] → first_ten = take 10 (iterrows filtered_df)).
Proof.
  intros Hi Hk filtered_df first_ten.
  assert (rank "find_doctor" (plan_filters plan !! "Area") (plan_keywords plan) filtered_df
          = inr first_ten) as Hrank.
  { unfold rank, first_ten. rewrite Hk. simpl. rewrite andb_false_r.
    by destruct (df_empty filtered_df). }
  split; [|split].
  - rewrite Hrank. unfold rank, first_ten. simpl.
    by destruct (df_empty filtered_df).
  - unfold search.
    assert (plan_is_empty plan = false) as ->.
    { unfold plan_keywords in Hk. unfold plan_is_empty.
      destruct (intent plan), (filters plan), (keywords plan); try done.
      all: by destruct (reasoning plan). }
    rewrite Hi. simpl. fold filtered_df. by rewrite Hrank.
  - intros Hcols. unfold first_ten.
    destruct (df_empty filtered_df) eqn:He; [|done].
    apply df_empty_true in He as [He|He].
    + unfold filtered_df in He. by rewrite filter_pipeline_doctor_columns in He.
    + unfold iterrows. by rewrite He.
Qed.

Definition plan_dr_l : Plan :=
  {| intent := Some "find_doctor"; filters := Some ∅;
     keywords := Some "l"; reasoning := Some "doctor name search" |}.

Lemma single_character_keyword_witness :
  plan_intent plan_dr_l = "find_doctor"
  ∧ String.length (plan_keywords plan_dr_l) = 1%nat
  ∧ search (H := indel_scorers) (Some (frame clinic_columns three_clinics))
      (Some (frame doctor_columns two_doctors)) (Some plan_dr_l)
    = inr (two_doctors, PlanOf plan_dr_l).
Proof.
  split; [reflexivity|]. split; [reflexivity|].
  destruct (single_character_keyword (H := indel_scorers)
              (frame clinic_columns three_clinics)
              (frame doctor_columns two_doctors) plan_dr_l eq_refl eq_refl)
    as (_ & -> & _).
  vm_compute. reflexivity.
Defined.

(** ** A dataset without a Name column (C7) *)

Definition nameless_doctors : DataFrame :=
  frame ["Specialty"; "Languages"]
    [ record [("Specialty", "Cardiology"); ("Languages", "English")] ].

Definition plan_dr_low : Plan :=
  {| intent := Some "find_doctor"; filters := Some ∅;
     keywords := Some "low"; reasoning := Some "doctor name search" |}.

(** C7. On a doctor dataset that has rows but no Name column, a name query
    is not answered with a (possibly empty) result: reading the Name column
    raises [KeyError], whatever the scorers. *)
Theorem name_column_missing_raises `{RapidFuzz} df_c :
  search (Some df_c) (Some nameless_doctors) (Some plan_dr_low)
  = inl (KeyError "Name").
Proof. reflexivity. Qed.

(** ** Sorting facts *)

Section SortingFacts.
Context {A : Type} (leb : A → A → bool).

Lemma insert_sorted_perm x l : insert_sorted leb x l ≡ₚ x :: l.
Proof.
  induction l as [|y l IH]; simpl; [done|].
  destruct (leb x y); [done|].
  rewrite IH. apply Permutation_swap.
Qed.

Lemma sort_by_perm l : sort_by leb l ≡ₚ l.
Proof.
  induction l as [|x l IH]; simpl; [done|].
  by rewrite insert_sorted_perm, IH.
Qed.

Lemma sort_by_length l : length (sort_by leb l) = length l.
Proof. by rewrite sort_by_perm. Qed.

Hypothesis leb_total : ∀ x y, leb x y = true ∨ leb y x = true.
Hypothesis leb_trans : ∀ x y z, leb x y = true → leb y z = true → leb x z = true.

Lemma insert_sorted_sorted x l :
  StronglySorted (λ a b, leb a b = true) l →
  StronglySorted (λ a b, leb a b = true) (insert_sorted leb x l).
Proof.
  induction 1 as [|y l Hl IH Hy]; simpl.
  - by repeat constructor.
  - destruct (leb x y) eqn:Hxy.
    + constructor; [by constructor|]. constructor; [done|].
      eapply Forall_impl; [exact Hy|]. intros z Hz. by eapply leb_trans.
    + constructor; [done|].
      rewrite insert_sorted_perm. constructor; [|done].
      destruct (leb_total x y); congruence.
Qed.

Lemma sort_by_sorted l : StronglySorted (λ a b, leb a b = true) (sort_by leb l).
Proof.
  induction l as [|x l IH]; simpl; [constructor|].
  by apply insert_sorted_sorted.
Qed.

(** A stable sort leaves a sorted list as it is. *)
Lemma insert_sorted_head x l :
  Forall (λ y, leb x y = true) l → insert_sorted leb x l = x :: l.
Proof. destruct 1 as [|y l Hy _]; simpl; [done|]. by rewrite Hy. Qed.

Lemma sort_by_id l :
  StronglySorted (λ a b, leb a b = true) l → sort_by leb l = l.
Proof.
  induction 1 as [|x l Hl IH Hx]; simpl; [done|].
  rewrite IH. by apply insert_sorted_head.
Qed.
End SortingFacts.

Lemma StronglySorted_weaken {A} (R R' : A → A → Prop) l :
  (∀ x y, R x y → R' x y) → StronglySorted R l → StronglySorted R' l.
Proof.
  intros HR. induction 1 as [|x l Hl IH Hx]; constructor; [done|].
  eapply Forall_impl; [exact Hx|]. intros y. apply HR.
Qed.

(** ** The postal-code stage (C4) *)

(** A row with an extractable postal code, with its distance to the query
    attached; [None] for a row without one. *)
Definition located (query_postal : Z) (row : Row) : option Row :=
  (λ clinic_postal,
     with_distance row (calculate_postal_distance query_postal clinic_postal))
  <$> extract_postal (row_get row "Address").

Lemma collect_distances_omap query_postal rs :
  collect_distances query_postal rs = omap (located query_postal) rs.*2.
Proof.
  unfold collect_distances.
  enough (∀ acc, fold_left
            (λ clinic_distances (lr : nat * Row),
               match extract_postal (row_get lr.2 "Address") with
               | Some clinic_postal =>
                   clinic_distances ++
                     [with_distance lr.2
                        (calculate_postal_distance query_postal clinic_postal)]
               | None => clinic_distances
               end) rs acc = acc ++ omap (located query_postal) rs.*2) as Hgen
    by apply (Hgen []).
  induction rs as [|lr rs IH]; intros acc; csimpl.
  - by rewrite app_nil_r.
  - rewrite IH. unfold located at 2.
    destruct (extract_postal _); simpl; [by rewrite <-app_assoc|done].
Qed.

Definition distance_leb (x y : Row) : bool :=
  Qle_bool (distance_key x) (distance_key y).

Lemma distance_leb_total x y : distance_leb x y = true ∨ distance_leb y x = true.
Proof.
  unfold distance_leb. rewrite !Qle_bool_iff.
  destruct (Qlt_le_dec (distance_key y) (distance_key x)); [right|left]; [|done].
  by apply Qlt_le_weak.
Qed.

Lemma distance_leb_trans x y z :
  distance_leb x y = true → distance_leb y z = true → distance_leb x z = true.
Proof. unfold distance_leb. rewrite !Qle_bool_iff. apply Qle_trans. Qed.

(** C4. For a clinic query whose location filter is six digits, the location
    stage keeps exactly the rows whose Address holds "Singapore", white space
    and six digits, each with the heuristic distance from the query code
    attached as [_distance]; the result is sorted by ascending distance, has
    at most 20 rows, every row left out is at least as far as every row kept,
    and the result is the empty frame when no row has such a code. *)
Theorem postal_stage_closest fdf loc_key :
  is_postal loc_key = true →
  let found := omap (located (Py.int loc_key)) (iterrows fdf) in
  let out := location_stage "find_clinic" (Some loc_key) fdf in
  (∃ rest, found ≡ₚ iterrows out ++ rest
           ∧ Forall (λ far, Forall (λ near, (distance_key near <= distance_key far)%Q)
                              (iterrows out)) rest)
  ∧ StronglySorted (λ x y, (distance_key x <= distance_key y)%Q) (iterrows out)
  ∧ length (iterrows out) = Nat.min 20 (length found)
  ∧ (found = [] → out = empty_frame).
Proof.
  intros Hp found out.
  assert (Py.truthy (Some loc_key) = true) as Ht.
  { unfold is_postal, Py.isdigit in Hp. by destruct loc_key. }
  assert (out = postal_stage fdf loc_key) as ->.
  { unfold out, location_stage. rewrite Ht.
    change (default "" (Some loc_key)) with loc_key. by rewrite Hp. }
  unfold postal_stage. rewrite collect_distances_omap. fold (iterrows fdf). fold found.
  clearbody found. destruct found as [|r found'].
  { split; [exists []; split; [done|constructor]|].
    split; [constructor|]. done. }
  cbv beta iota. remember (r :: found') as found eqn:Hfound.
  rewrite iterrows_frame. fold distance_leb.
  pose proof (sort_by_sorted distance_leb distance_leb_total distance_leb_trans found)
    as Hsorted.
  pose proof (sort_by_perm distance_leb found) as Hperm.
  rewrite <-(take_drop 20 (sort_by distance_leb found)) in Hsorted, Hperm.
  apply StronglySorted_app in Hsorted as (Hle & Htake & _).
  split; [|split; [|split]].
  - exists (drop 20 (sort_by distance_leb found)). split; [done|].
    apply Forall_forall. intros far Hfar. apply Forall_forall. intros near Hnear.
    apply Qle_bool_iff. by apply Hle.
  - eapply StronglySorted_weaken; [|exact Htake].
    intros x y Hxy. by apply Qle_bool_iff.
  - by rewrite length_take, sort_by_length.
  - intros ->. discriminate Hfound.
Qed.

Definition jurong_clinics : list Row :=
  [ clinic "Street 52 Clinic" "Blk 526 Jurong West Street 52 Singapore 640526" "Jurong West";
    clinic "No Postal Clinic" "Blk 1 Jurong East Avenue 1" "Jurong East";
    clinic "Street 64 Clinic" "Blk 651 Jurong West Street 64 Singapore 641651" "Jurong West" ].

Lemma postal_stage_closest_witness :
  is_postal "641652" = true
  ∧ StronglySorted (λ x y, (distance_key x <= distance_key y)%Q)
      (iterrows (location_stage "find_clinic" (Some "641652")
                   (frame clinic_columns jurong_clinics)))
  ∧ fmap (λ r, (row_get r "Name", _distance r))
      (iterrows (location_stage "find_clinic" (Some "641652")
                   (frame clinic_columns jurong_clinics)))
    = [ ("Street 64 Clinic", Some (inject_Z 1)); ("Street 52 Clinic", Some (inject_Z 1126)) ].
Proof.
  split; [reflexivity|]. split.
  - destruct (postal_stage_closest (frame clinic_columns jurong_clinics) "641652" eq_refl)
      as (_ & Hsorted & _).
    exact Hsorted.
  - vm_compute. reflexivity.
Defined.

(** ** The adjacency fallback of the area-name search (C6) *)

Section FilterFacts.
Context {A : Type} (P Q : A → bool).

Lemma filter_ext_in (l : list A) :
  Forall (λ x, P x = Q x) l → filter (λ x, P x) l = filter (λ x, Q x) l.
Proof.
  induction 1 as [|x l Hx _ IH]; [done|].
  rewrite !filter_cons, IH, Hx. done.
Qed.

Lemma filter_none (l : list A) :
  Forall (λ x, P x = false) l → filter (λ x, P x) l = [].
Proof.
  induction 1 as [|x l Hx _ IH]; [done|].
  rewrite filter_cons, IH, Hx. done.
Qed.

Lemma filter_all (l : list A) :
  Forall (λ x, P x = true) l → filter (λ x, P x) l = l.
Proof.
  induction 1 as [|x l Hx _ IH]; [done|].
  rewrite filter_cons, IH, Hx. done.
Qed.

Lemma existsb_false_Forall (l : list A) :
  existsb P l = false ↔ Forall (λ x, P x = false) l.
Proof.
  induction l as [|x l IH]; simpl; [by split; [constructor|]|].
  rewrite orb_false_iff, IH, Forall_cons. done.
Qed.
End FilterFacts.

(** The rows of a frame hold no cell outside its columns. *)
Definition well_formed (df : DataFrame) : Prop :=
  Forall (λ r, ∀ col, col ∉ columns df → cells r !! col = None) (iterrows df).

(** A direct match: the location occurs in the Area or Address column. *)
Definition direct_match (df : DataFrame) (loc_key : string) (r : Row) : bool :=
  has_column df "Area" && str_contains loc_key (row_get r "Area")
  || has_column df "Address" && str_contains loc_key (row_get r "Address").

Lemma direct_matches_mask df loc_key :
  range_indexed df →
  mask_of df (direct_match df loc_key) (direct_matches df loc_key).
Proof.
  intros Hr. unfold direct_matches, direct_match.
  pose proof (series_false_mask df) as H0.
  pose proof (contains_mask_mask df "Area" loc_key Hr) as Ha.
  pose proof (contains_mask_mask df "Address" loc_key Hr) as Hb.
  destruct (has_column df "Area"), (has_column df "Address"); simpl.
  - eapply mask_of_ext; [|exact (series_or_mask _ _ _ _ _
                                   (series_or_mask _ _ _ _ _ H0 Ha) Hb)]. done.
  - eapply mask_of_ext; [|exact (series_or_mask _ _ _ _ _ H0 Ha)].
    intros r; simpl. by rewrite orb_false_r.
  - eapply mask_of_ext; [|exact (series_or_mask _ _ _ _ _ H0 Hb)]. done.
  - done.
Qed.

(** The neighbours of an area name in the adjacency table. *)
Definition neighbours (loc_key : string) : list string :=
  default [] (nearby_areas !! Py.lower loc_key).

(** The row's Area column contains a neighbour of the location. *)
Definition near_area (df : DataFrame) (loc_key : string) (r : Row) : bool :=
  has_column df "Area" &&
  existsb (λ nearby, str_contains nearby (row_get r "Area")) (neighbours loc_key).

Lemma area_stage_fallback fdf loc_key :
  range_indexed fdf →
  series_any (direct_matches fdf loc_key) = false →
  iterrows (area_stage fdf loc_key) = filter (λ r, near_area fdf loc_key r) (iterrows fdf).
Proof.
  intros Hr Hany. unfold area_stage. rewrite Hany. simpl.
  pose proof (direct_matches_mask fdf loc_key Hr) as Hd.
  rewrite (series_any_mask _ _ _ Hd) in Hany.
  apply existsb_false_Forall in Hany.
  unfold near_area, neighbours.
  destruct (nearby_areas !! Py.lower loc_key) as [nearby_list|]; simpl.
  - pose proof (or_patterns_mask fdf "Area" nearby_list _ _ Hr Hd) as Hm.
    rewrite (iterrows_select _ _ _ Hr Hm). apply filter_ext_in.
    eapply Forall_impl; [exact Hany|]. intros r ->. done.
  - rewrite (iterrows_select _ _ _ Hr Hd), andb_false_r.
    rewrite (filter_none _ _ Hany). symmetry. apply filter_none.
    by apply Forall_forall.
Qed.

(** A clinic query that only filters on the area. *)
Definition clinic_plan (loc_key : string) : Plan :=
  {| intent := Some "find_clinic"; filters := Some {[ "Area" := loc_key ]};
     keywords := Some ""; reasoning := Some "location-based clinic search" |}.

Lemma contains_in_empty s : s ≠ "" → Py.contains (Py.lower s) "" = false.
Proof. intros Hs. destruct s; [congruence|reflexivity]. Qed.

Lemma filter_pipeline_area_only intent loc_key df :
  filter_pipeline intent {[ "Area" := loc_key ]} df
  = location_stage intent (Some loc_key) df.
Proof.
  unfold filter_pipeline.
  rewrite (lookup_singleton_ne "Area" "Specialty") by discriminate.
  rewrite (lookup_singleton_ne "Area" "Languages") by discriminate.
  by rewrite lookup_singleton_eq.
Qed.

Lemma no_direct_match_row cols rs loc_key r :
  Py.truthy (Some loc_key) = true →
  well_formed (frame cols rs) →
  r ∈ rs →
  direct_match (frame cols rs) loc_key r = false →
  in_area loc_key r = false ∧ in_address loc_key r = false.
Proof.
  intros Ht Hwf Hin Hd.
  assert (loc_key ≠ "") as Hne by (intros ->; done).
  unfold well_formed in Hwf. rewrite iterrows_frame, Forall_forall in Hwf.
  specialize (Hwf r Hin). unfold direct_match, has_column in Hd. simpl in Hd.
  apply orb_false_iff in Hd as [Ha Hb]. unfold in_area, in_address. split.
  - destruct (bool_decide_reflect ("Area" ∈ cols)) as [|Hc]; [exact Ha|].
    unfold row_get. rewrite (Hwf "Area" Hc). by apply contains_in_empty.
  - destruct (bool_decide_reflect ("Address" ∈ cols)) as [|Hc]; [exact Hb|].
    unfold row_get. rewrite (Hwf "Address" Hc). by apply contains_in_empty.
Qed.

(** C6. For a clinic query by area name on a loaded clinic dataset, when the
    OR of the Area and Address masks is empty the location stage keeps
    exactly the rows whose Area column contains one of the neighbours listed
    for the lower-cased name; a query that filters on the area alone then
    returns the first five of them. *)
Theorem adjacency_fallback `{RapidFuzz} cols rs df_d loc_key :
  Py.truthy (Some loc_key) = true →
  is_postal loc_key = false →
  well_formed (frame cols rs) →
  series_any (direct_matches (frame cols rs) loc_key) = false →
  iterrows (location_stage "find_clinic" (Some loc_key) (frame cols rs))
    = filter (λ r, near_area (frame cols rs) loc_key r) rs
  ∧ search (Some (frame cols rs)) (Some df_d) (Some (clinic_plan loc_key))
    = inr (take 5 (filter (λ r, near_area (frame cols rs) loc_key r) rs),
           PlanOf (clinic_plan loc_key)).
Proof.
  intros Ht Hp Hwf Hany.
  pose proof (frame_range_indexed cols rs) as Hr.
  assert (location_stage "find_clinic" (Some loc_key) (frame cols rs)
          = area_stage (frame cols rs) loc_key) as Hstage.
  { unfold location_stage. rewrite Ht.
    change (default "" (Some loc_key)) with loc_key. by rewrite Hp. }
  pose proof (area_stage_fallback _ _ Hr Hany) as Hrows.
  rewrite iterrows_frame in Hrows.
  split; [by rewrite Hstage|].
  unfold search, plan_intent, plan_filters, plan_keywords. simpl.
  rewrite filter_pipeline_area_only, Hstage, lookup_singleton_eq.
  unfold rank. rewrite Ht. simpl.
  rewrite rank_clinics_tiers, Hrows.
  set (kept := filter (λ r, near_area (frame cols rs) loc_key r) rs).
  assert (Forall (λ r, in_area loc_key r = false ∧ in_address loc_key r = false) kept)
    as Hnone.
  { pose proof (direct_matches_mask _ loc_key Hr) as Hd.
    rewrite (series_any_mask _ _ _ Hd), iterrows_frame in Hany.
    apply existsb_false_Forall in Hany. rewrite Forall_forall in Hany.
    apply Forall_forall. intros r [_ Hin]%list_elem_of_filter.
    eapply no_direct_match_row; eauto. }
  destruct (df_empty (area_stage (frame cols rs) loc_key)) eqn:He; simpl.
  - apply df_empty_true in He as [He|He].
    + simpl in He. subst cols. unfold kept.
      rewrite (filter_none (near_area (frame [] rs) loc_key)); [done|].
      by apply Forall_forall.
    + apply iterrows_nil in He. rewrite Hrows in He. fold kept in He.
      by rewrite He.
  - rewrite (filter_none (in_area loc_key) kept).
    2: { eapply Forall_impl; [exact Hnone|]. by intros r [-> _]. }
    rewrite (filter_none (λ r, negb (in_area loc_key r) && in_address loc_key r) kept).
    2: { eapply Forall_impl; [exact Hnone|]. by intros r [-> ->]. }
    rewrite (filter_all (λ r, negb (in_area loc_key r) && negb (in_address loc_key r)) kept).
    2: { eapply Forall_impl; [exact Hnone|]. by intros r [-> ->]. }
    done.
Qed.

Definition bedok_clinics : list Row :=
  [ clinic "Yishun Family Clinic" "1 Yishun Ring Road Singapore 760001" "Yishun";
    clinic "Tampines Medical" "2 Tampines Street 11 Singapore 520002" "Tampines" ].

Lemma adjacency_fallback_witness :
  Py.truthy (Some "Bedok") = true
  ∧ is_postal "Bedok" = false
  ∧ well_formed (frame clinic_columns bedok_clinics)
  ∧ series_any (direct_matches (frame clinic_columns bedok_clinics) "Bedok") = false
  ∧ search (H := indel_scorers) (Some (frame clinic_columns bedok_clinics))
      (Some (frame doctor_columns two_doctors)) (Some (clinic_plan "Bedok"))
    = inr ([clinic "Tampines Medical" "2 Tampines Street 11 Singapore 520002" "Tampines"],
           PlanOf (clinic_plan "Bedok")).
Proof.
  assert (well_formed (frame clinic_columns bedok_clinics)) as Hwf.
  { unfold well_formed. rewrite iterrows_frame.
    repeat constructor; intros col Hcol; unfold clinic, record; simpl;
      repeat (rewrite lookup_insert_ne;
              [|intros <-; apply Hcol; unfold clinic_columns; set_solver]);
      apply lookup_empty. }
  split; [reflexivity|]. split; [reflexivity|]. split; [exact Hwf|].
  split; [vm_compute; reflexivity|].
  destruct (adjacency_fallback (H := indel_scorers) clinic_columns bedok_clinics
              (frame doctor_columns two_doctors) "Bedok" eq_refl eq_refl Hwf)
    as [_ ->]; [vm_compute; reflexivity|].
  vm_compute. reflexivity.
Defined.

(** ** Idempotence of the filter pipeline (C8) *)

Definition three_doctors : list Row :=
  [ doctor "Tan Wei Ming" "Neurology" "English" "" "Consultant";
    doctor "Low Kim Seng" "Cardiology" "English" "" "Consultant";
    doctor "Low Huey Moon" "Cardiology" "English" "" "Consultant" ].

Definition cardiology_only : gmap string string := {[ "Specialty" := "Cardiology" ]}.

(** C8. Filtering three doctors by the specialty "Cardiology" keeps the two
    cardiologists, with their labels 1 and 2. Filtering that output again by
    the same filter loses the second one: the mask starts as
    [pd.Series([False] * 2)] with labels 0 and 1, label 2 is a hole on the
    left of the first [|], and the row with label 2 is dropped. *)
Theorem filter_pipeline_not_idempotent :
  let once := filter_pipeline "find_doctor" cardiology_only
                (frame doctor_columns three_doctors) in
  let twice := filter_pipeline "find_doctor" cardiology_only once in
  fmap (λ lr, (lr.1, row_get lr.2 "Name")) (rows once)
    = [ (1%nat, "Low Kim Seng"); (2%nat, "Low Huey Moon") ]
  ∧ fmap (λ lr, (lr.1, row_get lr.2 "Name")) (rows twice)
    = [ (1%nat, "Low Kim Seng") ]
  ∧ twice ≠ once.
Proof.
  split; [vm_compute; reflexivity|]. split; [vm_compute; reflexivity|].
  intros Heq. apply (f_equal (λ df, length (rows df))) in Heq.
  vm_compute in Heq. discriminate.
Qed.

(** ** Strategy 4 and short keyword words (C9) *)

Section Strategy4.
Context `{RapidFuzz}.

Lemma best_word_short kw name_words :
  (String.length kw < 3)%nat → best_word kw name_words = 0%Q.
Proof.
  intros Hlen. unfold best_word.
  assert ((3 <=? String.length kw)%nat = false) as -> by (apply Nat.leb_gt; lia).
  by induction name_words.
Qed.

Lemma fold_Qmin_le_init l a : (fold_left Qmin l a <= a)%Q.
Proof.
  revert a. induction l as [|x l IH]; intros a; simpl; [apply Qle_refl|].
  eapply Qle_trans; [apply IH|apply Q.le_min_l].
Qed.

Lemma fold_Qmin_le_elem l a x : x ∈ l → (fold_left Qmin l a <= x)%Q.
Proof.
  revert a. induction l as [|y l IH]; intros a Hin; simpl.
  - by apply elem_of_nil in Hin.
  - apply elem_of_cons in Hin as [->|Hin]; [|by apply IH].
    eapply Qle_trans; [apply fold_Qmin_le_init|apply Q.le_min_r].
Qed.

Lemma Qmin_list_le l x : x ∈ l → (Qmin_list l <= x)%Q.
Proof.
  destruct l as [|y l]; simpl; [by intros ?%elem_of_nil|].
  intros [->|Hin]%elem_of_cons;
    [apply fold_Qmin_le_init|by apply fold_Qmin_le_elem].
Qed.

(** A keyword with a word shorter than three characters makes strategy 4
    report nothing. *)
Lemma multi_word_matches_short keywords names :
  (∃ kw, kw ∈ Py.split (Py.lower keywords) ∧ (String.length kw < 3)%nat) →
  multi_word_matches keywords names = [].
Proof.
  intros (kw & Hkw & Hlen). unfold multi_word_matches.
  generalize (enumerate_from 0 names). intros l.
  induction l as [|iname l IH]; [done|]. simpl.
  set (scores := (λ kw, best_word kw (Py.split (Py.lower iname.2)))
                   <$> Py.split (Py.lower keywords)).
  assert (Qgtb (Qmin_list scores) 35 = false) as ->; [|by rewrite andb_false_r].
  unfold Qgtb. apply negb_false_iff, Qle_bool_iff.
  apply Qle_trans with 0%Q; [|done].
  apply Qmin_list_le. unfold scores. apply list_elem_of_fmap.
  exists kw. split; [|done]. by rewrite best_word_short.
Qed.
End Strategy4.

(** C9. A keyword with a white-space delimited word shorter than three
    characters makes strategy 4 report no candidate at all: the short word's
    best score stays 0, so the minimum of the per-word scores never exceeds
    35. *)
Theorem short_word_blocks_strategy4 `{RapidFuzz} keywords names :
  (∃ kw, kw ∈ Py.split (Py.lower keywords) ∧ (String.length kw < 3)%nat) →
  multi_word_matches keywords names = []
  ∧ ∀ name, (Qmin_list ((λ kw, best_word kw (Py.split (Py.lower name)))
                          <$> Py.split (Py.lower keywords)) <= 0)%Q.
Proof.
  intros Hshort. split; [by apply multi_word_matches_short|].
  destruct Hshort as (kw & Hkw & Hlen). intros name.
  apply Qmin_list_le, list_elem_of_fmap. exists kw.
  split; [|done]. by rewrite best_word_short.
Qed.

Lemma short_word_blocks_strategy4_witness :
  (∃ kw, kw ∈ Py.split (Py.lower "Dr Low") ∧ (String.length kw < 3)%nat)
  ∧ multi_word_matches (H := indel_scorers) "Dr Low"
      ["Low Huey Moon"; "Low Kim Seng"; "Tan Wei Ming"] = [].
Proof.
  assert (∃ kw, kw ∈ Py.split (Py.lower "Dr Low") ∧ (String.length kw < 3)%nat) as Hshort.
  { exists "dr". split; [|simpl; lia]. vm_compute. left. }
  split; [exact Hshort|].
  exact (proj1 (short_word_blocks_strategy4 (H := indel_scorers) "Dr Low"
                  ["Low Huey Moon"; "Low Kim Seng"; "Tan Wei Ming"] Hshort)).
Defined.

(** ** The doctor search by name (C2) *)

Lemma enumerate_from_lookup {A} k (l : list A) i x :
  (i, x) ∈ enumerate_from k l → (k ≤ i)%nat ∧ l !! (i - k)%nat = Some x.
Proof.
  revert k. induction l as [|y l IH]; intros k Hin; simpl in Hin.
  - by apply elem_of_nil in Hin.
  - apply elem_of_cons in Hin as [[= -> ->]|Hin].
    + split; [lia|]. by rewrite Nat.sub_diag.
    + apply IH in Hin as [Hle Hl]. split; [lia|].
      replace (i - k)%nat with (S (i - S k)) by lia. done.
Qed.

Lemma mapM_result_ok {A B} (f : A → result B) l k :
  Forall2 (λ x y, f x = inr y) l k → mapM f l = inr k.
Proof. induction 1 as [|x y l k Hxy _ IH]; simpl; [done|]. by rewrite Hxy, IH. Qed.

Lemma substring_scan_take keywords rs results :
  (length results < 10)%nat →
  substring_scan keywords rs results =
    take 10 (results ++
             filter (λ r, Py.contains (Py.lower keywords) (Py.lower (row_get r "Name"))) rs).
Proof.
  revert results. induction rs as [|row rs IH]; intros results Hlen.
  - simpl. rewrite app_nil_r. by rewrite take_ge by lia.
  - cbn [substring_scan].
    destruct (Py.contains _ _) eqn:Hc.
    2: { rewrite filter_cons_False by (simpl; rewrite Hc; exact id). by apply IH. }
    rewrite filter_cons_True by (simpl; rewrite Hc; exact I).
    set (rest := filter _ rs) in *.
    replace (results ++ row :: rest) with ((results ++ [row]) ++ rest)
      by (by rewrite <-(assoc_L (++))).
    destruct (10 <=? length (results ++ [row]))%nat eqn:Hfull.
    + apply Nat.leb_le in Hfull. rewrite length_app in Hfull. simpl in Hfull.
      rewrite take_app_length'; [done|]. rewrite length_app. simpl. lia.
    + apply Nat.leb_gt in Hfull. by rewrite IH.
Qed.

(** A match names the candidate at its own index. *)
Definition valid_match (names : list string) (m : Match) : Prop :=
  names !! m.2 = Some m.1.1.

Definition valid_entry (names : list string) (e : string * Best) : Prop :=
  names !! e.2.1.2 = Some e.1.

(** The match [(name, weighted_score, idx)] made from an item of [all_matches]. *)
Definition to_match (e : string * Best) : Match := (e.1, e.2.1.1, e.2.1.2).

Lemma extract_valid scorer query names limit :
  Forall (valid_match names) (extract scorer query names limit).
Proof.
  unfold extract. apply Forall_take. rewrite sort_by_perm.
  apply Forall_fmap, Forall_forall. intros [i c] Hin.
  apply enumerate_from_lookup in Hin as [_ Hl]. rewrite Nat.sub_0_r in Hl.
  exact Hl.
Qed.

Lemma dict_set_valid names d k v :
  Forall (valid_entry names) d → valid_entry names (k, v) →
  Forall (valid_entry names) (dict_set d k v).
Proof.
  intros Hd Hkv. induction Hd as [|[k' v'] d Hx Hd IH]; simpl.
  - by repeat constructor.
  - destruct (String.eqb k k'); by constructor.
Qed.

Lemma fuse_valid names strategy_name matches all_matches :
  Forall (valid_match names) matches →
  Forall (valid_entry names) all_matches →
  Forall (valid_entry names) (fuse strategy_name matches all_matches).
Proof.
  unfold fuse. intros Hm. revert all_matches.
  induction Hm as [|[[name score] idx] matches Hx _ IH]; intros d Hd; simpl; [done|].
  apply IH. repeat case_match; try done; by apply dict_set_valid.
Qed.

Lemma partition_matches_filter keywords sorted_matches :
  partition_matches keywords sorted_matches =
    (to_match <$> filter (λ e, is_exact keywords e.1) sorted_matches,
     to_match <$> filter (λ e, negb (is_exact keywords e.1)) sorted_matches).
Proof.
  unfold partition_matches.
  enough (∀ ex fz,
    fold_left
      (λ (acc : list Match * list Match) (item : string * Best),
         let '(exact_matches, fuzzy_matches) := acc in
         let '(name, (weighted_score, idx, original_score)) := item in
         if is_exact keywords name
         then (exact_matches ++ [(name, weighted_score, idx)], fuzzy_matches)
         else (exact_matches, fuzzy_matches ++ [(name, weighted_score, idx)]))
      sorted_matches (ex, fz)
    = (ex ++ (to_match <$> filter (λ e, is_exact keywords e.1) sorted_matches),
       fz ++ (to_match <$> filter (λ e, negb (is_exact keywords e.1)) sorted_matches)))
    as Hgen by apply (Hgen [] []).
  induction sorted_matches as [|[name [[w idx] s]] l IH]; intros ex fz; simpl.
  - by rewrite !app_nil_r.
  - rewrite !filter_cons. simpl.
    destruct (is_exact keywords name); simpl; rewrite IH;
      by rewrite <-?(assoc_L (++)).
Qed.

Lemma select_final_subseteq exact_matches fuzzy_matches :
  select_final exact_matches fuzzy_matches ⊆ exact_matches ++ fuzzy_matches.
Proof.
  unfold select_final. intros m. destruct (3 <=? length exact_matches)%nat.
  - intros Hin%subseteq_take. apply elem_of_app. by left.
  - rewrite !elem_of_app. intros [Hin|Hin%subseteq_take]; [by left|right].
    by apply list_elem_of_filter in Hin as [_ Hin].
Qed.

Section NameSearch.
Context `{RapidFuzz}.

Lemma multi_word_matches_valid keywords names :
  Forall (valid_match names) (multi_word_matches keywords names).
Proof.
  unfold multi_word_matches.
  assert (Forall (λ ic : nat * string, names !! ic.1 = Some ic.2)
            (enumerate_from 0 names)) as Hen.
  { apply Forall_forall. intros [i c] Hin.
    apply enumerate_from_lookup in Hin as [_ Hl]. by rewrite Nat.sub_0_r in Hl. }
  revert Hen. generalize (enumerate_from 0 names). intros l Hl.
  enough (∀ acc, Forall (valid_match names) acc →
    Forall (valid_match names)
      (fold_left
         (λ acc (iname : nat * string),
            let name_words := Py.split (Py.lower iname.2) in
            let word_match_scores :=
              (λ kw, best_word kw name_words) <$> Py.split (Py.lower keywords) in
            if (0 <? length word_match_scores)%nat
               && Qgtb (Qmin_list word_match_scores) 35
            then acc ++ [(iname.2,
                          (Qsum word_match_scores
                           / inject_Z (Z.of_nat (length word_match_scores)))%Q,
                          iname.1)]
            else acc) l acc)) as Hgen by by apply Hgen.
  induction Hl as [|ic l Hic _ IH]; intros acc Hacc; simpl; [done|].
  apply IH. destruct (_ && _); [|done].
  apply Forall_app. split; [done|]. by repeat constructor.
Qed.

Lemma fused_valid keywords names :
  Forall (valid_entry names) (fused keywords names).
Proof.
  unfold fused.
  repeat (apply fuse_valid;
          [first [apply extract_valid|apply multi_word_matches_valid]|]).
  constructor.
Qed.

Lemma tiers_spec keywords names :
  let sorted_matches :=
    sort_by (λ x y : string * Best, Qle_bool y.2.1.1 x.2.1.1) (fused keywords names) in
  tiers keywords names =
    (to_match <$> filter (λ e, is_exact keywords e.1) sorted_matches,
     to_match <$> filter (λ e, negb (is_exact keywords e.1)) sorted_matches).
Proof. unfold tiers. by rewrite partition_matches_filter. Qed.

Lemma tiers_valid keywords names :
  Forall (λ m, valid_match names m ∧ is_exact keywords m.1.1 = true)
    (tiers keywords names).1
  ∧ Forall (valid_match names) (tiers keywords names).2.
Proof.
  rewrite tiers_spec. simpl.
  assert (Forall (valid_entry names)
            (sort_by (λ x y : string * Best, Qle_bool y.2.1.1 x.2.1.1)
               (fused keywords names))) as Hs.
  { rewrite sort_by_perm. apply fused_valid. }
  rewrite Forall_forall in Hs.
  split; apply Forall_fmap, Forall_forall; intros e [He Hin]%list_elem_of_filter.
  - split; [by apply Hs|]. simpl. by destruct (is_exact keywords e.1).
  - by apply Hs.
Qed.
End NameSearch.

Lemma Forall_exists_Forall2 {A B} (R : A → B → Prop) (l : list A) :
  Forall (λ x, ∃ y, R x y) l → ∃ k, Forall2 R l k.
Proof.
  induction 1 as [|x l [y Hy] _ [k Hk]]; [by exists []|].
  exists (y :: k). by constructor.
Qed.

(** The row a match points at: it exists, and it bears the match's name. *)
Lemma valid_match_row fdf (m : Match) :
  valid_match ((λ r, row_get r "Name") <$> iterrows fdf) m →
  ∃ r, iloc fdf m.2 = inr r
       ∧ iterrows fdf !! m.2 = Some r
       ∧ row_get r "Name" = m.1.1.
Proof.
  unfold valid_match, iloc, iterrows. rewrite !list_lookup_fmap.
  destruct (rows fdf !! m.2) as [lr|]; simpl; [|done].
  intros [= Hn]. by exists lr.2.
Qed.

(** The fused selection of the name search: [final_matches[:5]]. *)
Definition final_matches `{RapidFuzz} (keywords : string) (fdf : DataFrame)
    : list Match :=
  let names := (λ r, row_get r "Name") <$> iterrows fdf in
  take 5 (select_final (tiers keywords names).1 (tiers keywords names).2).

(** The rows [rs] are those the matches [ms] point at, in order. *)
Definition rows_of (fdf : DataFrame) (ms : list Match) (rs : list Row) : Prop :=
  Forall2 (λ (m : Match) r, iterrows fdf !! m.2 = Some r ∧ row_get r "Name" = m.1.1)
    ms rs.

Lemma doctor_name_search_cases `{RapidFuzz} keywords fdf :
  has_column fdf "Name" = true →
  ∃ rs, rows_of fdf (final_matches keywords fdf) rs
        ∧ doctor_name_search keywords fdf =
            inr (match rs with
                 | [] => take 10 (filter (λ r, Py.contains (Py.lower keywords)
                                                 (Py.lower (row_get r "Name")))
                                    (iterrows fdf))
                 | _ :: _ => rs
                 end).
Proof.
  intros Hname. unfold final_matches, doctor_name_search, name_column.
  rewrite Hname. simpl.
  set (names := (λ r, row_get r "Name") <$> iterrows fdf).
  pose proof (tiers_valid keywords names) as [Hex Hfz].
  destruct (tiers keywords names) as [exact_matches fuzzy_matches]. simpl in *.
  assert (Forall (valid_match names)
            (take 5 (select_final exact_matches fuzzy_matches))) as Hfinal.
  { apply Forall_take, Forall_forall. intros m Hin%select_final_subseteq.
    apply elem_of_app in Hin as [Hin|Hin].
    - rewrite Forall_forall in Hex. by apply Hex.
    - rewrite Forall_forall in Hfz. by apply Hfz. }
  destruct (Forall_exists_Forall2
              (λ (m : Match) r, iloc fdf m.2 = inr r
                                ∧ iterrows fdf !! m.2 = Some r
                                ∧ row_get r "Name" = m.1.1)
              (take 5 (select_final exact_matches fuzzy_matches))) as [rs Hrs].
  { eapply Forall_impl; [exact Hfinal|]. intros m Hm. by apply valid_match_row. }
  exists rs. split.
  { eapply Forall2_impl; [exact Hrs|]. by intros m r (_ & ? & ?). }
  rewrite (mapM_result_ok _ _ rs).
  2: { eapply Forall2_impl; [exact Hrs|]. by intros m r (? & _). }
  simpl. destruct rs; [|done].
  by rewrite substring_scan_take by (simpl; lia).
Qed.

(** C2, amended. For a keyword longer than one character on a non-empty
    doctor set with a Name column, the name search returns the rows of the
    fused selection, at most 5, when that selection is not empty, and
    otherwise the first 10 rows whose name contains the keyword; and when
    the exact tier has at least 3 entries, the results are the rows of its
    first five entries, each bearing a name with a word equal to or starting
    with the keyword. *)
Theorem name_search_bounds `{RapidFuzz} loc_key keywords fdf :
  (1 < String.length keywords)%nat →
  df_empty fdf = false →
  has_column fdf "Name" = true →
  let names := (λ r, row_get r "Name") <$> iterrows fdf in
  let exact_matches := (tiers keywords names).1 in
  ∃ results,
    rank "find_doctor" loc_key keywords fdf = inr results
    ∧ (final_matches keywords fdf ≠ [] →
         rows_of fdf (final_matches keywords fdf) results
         ∧ (length results ≤ 5)%nat)
    ∧ (final_matches keywords fdf = [] →
         results = take 10 (filter (λ r, Py.contains (Py.lower keywords)
                                           (Py.lower (row_get r "Name")))
                              (iterrows fdf)))
    ∧ (length results ≤ 10)%nat
    ∧ ((3 ≤ length exact_matches)%nat →
         rows_of fdf (take 5 exact_matches) results
         ∧ Forall (λ r, is_exact keywords (row_get r "Name") = true) results).
Proof.
  intros Hlen Hne Hname names exact_matches.
  destruct (doctor_name_search_cases keywords fdf Hname) as (rs & Hrows & Hsearch).
  assert (rank "find_doctor" loc_key keywords fdf = doctor_name_search keywords fdf)
    as Hrank.
  { unfold rank. rewrite Hne. simpl.
    destruct keywords as [|c keywords]; [simpl in Hlen; lia|]. simpl.
    destruct keywords; [simpl in Hlen; lia|done]. }
  rewrite Hrank, Hsearch.
  pose proof (Forall2_length _ _ _ Hrows) as Hlen_rs.
  assert (length (final_matches keywords fdf) ≤ 5)%nat as Hfive.
  { unfold final_matches. rewrite length_take. lia. }
  eexists. split; [done|]. split; [|split; [|split]].
  - intros Hfin. destruct rs as [|r rs].
    + destruct (final_matches keywords fdf); [done|simpl in Hlen_rs; lia].
    + split; [done|lia].
  - intros Hfin. rewrite Hfin in Hlen_rs. by destruct rs.
  - destruct rs; [rewrite length_take; apply Nat.le_min_l|lia].
  - intros Hthree.
    assert (final_matches keywords fdf = take 5 exact_matches) as Hfin.
    { unfold final_matches, select_final. fold names. fold exact_matches.
      rewrite (proj2 (Nat.leb_le _ _) Hthree), take_take. done. }
    rewrite Hfin in Hrows, Hlen_rs.
    rewrite length_take in Hlen_rs.
    destruct rs as [|r rs]; [cbn [length] in Hlen_rs; lia|].
    split; [done|].
    pose proof (tiers_valid keywords names) as [Hex _]. fold exact_matches in Hex.
    apply (Forall_take _ 5%nat) in Hex.
    revert Hrows Hex. generalize (take 5 exact_matches) (r :: rs).
    induction 1 as [|m r' ms rs' [_ Hn] _ IH]; [done|].
    intros [[_ Hm] Hms]%Forall_cons. constructor; [by rewrite Hn|by apply IH].
Qed.

(** *** When the fusion reports nothing *)

Lemma fuse_low_scores strategy_name matches all_matches :
  Forall (λ m, Qgtb (match_score m) 25 = false) matches →
  fuse strategy_name matches all_matches = all_matches.
Proof.
  unfold fuse. induction 1 as [|[[name score] idx] matches Hm _ IH]; simpl; [done|].
  unfold match_score in Hm. simpl in Hm. by rewrite Hm.
Qed.

Lemma extract_low_scores scorer query names limit :
  Forall (λ name, (scorer query name <= 25)%Q) names →
  Forall (λ m, Qgtb (match_score m) 25 = false) (extract scorer query names limit).
Proof.
  intros Hlow. unfold extract. apply Forall_take. rewrite sort_by_perm.
  apply Forall_fmap, Forall_forall. intros [i c] Hin.
  apply enumerate_from_lookup in Hin as [_ Hl].
  apply list_elem_of_lookup_2 in Hl. rewrite Forall_forall in Hlow.
  unfold match_score, Qgtb. simpl.
  apply negb_false_iff, Qle_bool_iff. by apply Hlow.
Qed.

(** Whatever the scorers, if none of the three library strategies scores a
    candidate above 25 and the keyword has a word shorter than three
    characters, nothing is fused and the search is the substring scan. *)
Lemma name_search_falls_back `{RapidFuzz} keywords fdf :
  has_column fdf "Name" = true →
  (∃ kw, kw ∈ Py.split (Py.lower keywords) ∧ (String.length kw < 3)%nat) →
  Forall (λ name, (token_set_ratio keywords name <= 25)%Q
                  ∧ (partial_ratio keywords name <= 25)%Q
                  ∧ (token_sort_ratio keywords name <= 25)%Q)
    ((λ r, row_get r "Name") <$> iterrows fdf) →
  doctor_name_search keywords fdf =
    inr (take 10 (filter (λ r, Py.contains (Py.lower keywords)
                                 (Py.lower (row_get r "Name")))
                    (iterrows fdf))).
Proof.
  intros Hname Hshort Hlow.
  destruct (doctor_name_search_cases keywords fdf Hname) as (rs & Hrows & ->).
  assert (final_matches keywords fdf = []) as Hfin.
  { unfold final_matches, tiers, fused.
    rewrite (multi_word_matches_short _ _ Hshort).
    rewrite !(fuse_low_scores _ (extract _ _ _ _))
      by (apply extract_low_scores; eapply Forall_impl; [exact Hlow|];
          by intros name (? & ? & ?)).
    done. }
  rewrite Hfin in Hrows. by inversion Hrows.
Qed.

Definition seven_ngs : list Row :=
  (λ name, doctor name "Cardiology" "English" "" "Consultant")
  <$> [ "NG WEI MING"; "NG KIM SENG"; "NG HUEY MOON"; "NG AH KOW";
        "NG BEE LAY"; "NG CHEE KEONG"; "NG MEI LING" ].

(** C2, as stated, fails: for the keyword "ng" and seven doctors whose names
    are written in capitals, no strategy reports a candidate (the scorers
    compare case-sensitively and "ng" is too short for strategy 4), and the
    substring scan returns all seven rows. *)
Lemma name_search_exceeds_five :
  rank (H := indel_scorers) "find_doctor" None "ng" (frame doctor_columns seven_ngs)
    = inr seven_ngs
  ∧ ¬ (length seven_ngs ≤ 5)%nat.
Proof. split; [vm_compute; reflexivity|]. simpl. lia. Qed.

Definition low_doctors : list Row :=
  [ doctor "Low Huey Moon" "Cardiology" "English" "" "Consultant";
    doctor "Low Kim Seng" "Neurology" "English" "" "Consultant";
    doctor "Tan Wei Ming" "Urology" "English" "" "Consultant" ].

Lemma name_search_bounds_witness :
  (1 < String.length "low")%nat
  ∧ df_empty (frame doctor_columns low_doctors) = false
  ∧ has_column (frame doctor_columns low_doctors) "Name" = true
  ∧ ∃ results,
      rank (H := indel_scorers) "find_doctor" None "low"
        (frame doctor_columns low_doctors) = inr results
      ∧ (length results ≤ 10)%nat.
Proof.
  split; [simpl; lia|]. split; [reflexivity|]. split; [reflexivity|].
  destruct (name_search_bounds (H := indel_scorers) None "low"
              (frame doctor_columns low_doctors))
    as (results & Hrank & _ & _ & Hten & _);
    [simpl; lia|reflexivity|reflexivity|].
  exists results. by split.
Defined.

(** ** The doctor pipeline on a rebuilt index *)

(** What the failure of C8 is due to: once the output of a pass is given the
    default index again ([reset_index(drop=True)]), a second pass of a doctor
    query keeps every row. *)

(** The row predicates of the stages. *)
Definition spec_pred (cols : list string) (specialty_filter : string) (r : Row) : bool :=
  existsb (λ col, bool_decide (col ∈ cols) && str_contains specialty_filter (row_get r col))
    search_columns.

Definition fallback_pred (cols : list string) (r : Row) : bool :=
  bool_decide ("Specialty" ∈ cols) &&
  existsb (λ fb, str_contains fb (row_get r "Specialty")) fallback_specialties.

(** The predicate the specialty stage applies to the dataset [rs]. *)
Definition spec_keep (cols : list string) (specialty_filter : string)
    (rs : list Row) : Row → bool :=
  if is_paediatric (Py.lower (corrected specialty_filter))
     && existsb (fallback_pred cols) rs
  then fallback_pred cols
  else spec_pred cols (corrected specialty_filter).

Definition lang_pred (lang : string) (r : Row) : bool :=
  str_contains
    (if String.eqb (Py.lower lang) "chinese" || String.eqb (Py.lower lang) "mandarin"
     then "Mandarin" else lang)
    (row_get r "Languages").

Definition doctor_loc_pred (cols : list string) (loc_key : string) (r : Row) : bool :=
  if bool_decide ("Area" ∈ cols) then str_contains loc_key (row_get r "Area")
  else if bool_decide ("Address" ∈ cols) then str_contains loc_key (row_get r "Address")
  else true.

(** The rows a doctor query keeps from the dataset [rs]. *)
Definition doctor_keep (cols : list string) (filters : gmap string string)
    (rs : list Row) (r : Row) : bool :=
  (if Py.truthy (filters !! "Specialty")
   then spec_keep cols (default "" (filters !! "Specialty")) rs r else true)
  && (if Py.truthy (filters !! "Languages") && bool_decide ("Languages" ∈ cols)
      then lang_pred (default "" (filters !! "Languages")) r else true)
  && (if Py.truthy (filters !! "Area")
      then doctor_loc_pred cols (default "" (filters !! "Area")) r else true).

Lemma select_own_mask df col pat :
  NoDup (rows df).*1 →
  rows (select df (contains_mask df col pat))
  = filter (λ lr : nat * Row, str_contains pat (row_get lr.2 col)) (rows df).
Proof.
  intros Hnd. unfold select; simpl.
  assert (Forall (λ lr : nat * Row,
                    contains_mask df col pat !! lr.1
                    = Some (str_contains pat (row_get lr.2 col))) (rows df)) as Hall.
  { apply Forall_forall. intros lr Hin. unfold contains_mask.
    apply elem_of_list_to_map_1; [by rewrite <-list_fmap_compose|].
    apply list_elem_of_fmap. by exists lr. }
  clear Hnd. induction Hall as [|lr l Hlr _ IH]; [done|].
  rewrite !filter_cons, IH, Hlr.
  destruct (str_contains pat (row_get lr.2 col)); repeat case_decide; naive_solver.
Qed.

Lemma select_own df col pat :
  NoDup (rows df).*1 →
  select df (contains_mask df col pat) =
    {| columns := columns df;
       rows := filter (λ lr : nat * Row, str_contains pat (row_get lr.2 col)) (rows df) |}.
Proof. intros Hnd. unfold select. f_equal. exact (select_own_mask df col pat Hnd). Qed.

Lemma filter_rows_NoDup (K : Row → bool) cols rs :
  NoDup (filter (λ lr : nat * Row, K lr.2) (rows (frame cols rs))).*1.
Proof.
  apply (sublist_NoDup _ (rows (frame cols rs)).*1).
  - apply range_indexed_NoDup, frame_range_indexed.
  - apply fmap_sublist, sublist_filter.
Qed.

Lemma filter_filter_and {A} (P Q : A → bool) (l : list A) :
  filter (λ x, Q x) (filter (λ x, P x) l) = filter (λ x, P x && Q x) l.
Proof.
  induction l as [|x l IH]; [done|].
  rewrite !filter_cons. destruct (P x) eqn:HP; simpl.
  - rewrite filter_cons, IH. by destruct (Q x).
  - by rewrite IH.
Qed.

Lemma select_filter df P m :
  range_indexed df → mask_of df P m →
  select df m =
    {| columns := columns df;
       rows := filter (λ lr : nat * Row, P lr.2) (rows df) |}.
Proof.
  intros Hr Hm. unfold select. f_equal. exact (select_mask df P m Hr Hm).
Qed.

Lemma specialty_stage_rows cols rs specialty_filter :
  specialty_stage (frame cols rs) specialty_filter =
    {| columns := cols;
       rows := filter (λ lr : nat * Row, spec_keep cols specialty_filter rs lr.2)
                 (rows (frame cols rs)) |}.
Proof.
  pose proof (frame_range_indexed cols rs) as Hr.
  pose proof (or_patterns_mask (frame cols rs) "Specialty" fallback_specialties _ _ Hr
                (series_false_mask (frame cols rs))) as Hf.
  pose proof (or_columns_mask (frame cols rs) search_columns
                (corrected specialty_filter) _ _ Hr
                (series_false_mask (frame cols rs))) as Hs.
  unfold specialty_stage, spec_keep.
  destruct (is_paediatric _); cbv beta iota zeta.
  - rewrite andb_true_l.
    assert (df_empty (select (frame cols rs)
                        (or_patterns (frame cols rs) "Specialty" fallback_specialties
                           (series_false (length (rows (frame cols rs))))))
            = negb (existsb (fallback_pred cols) rs)) as ->.
    { pose proof (iterrows_select _ _ _ Hr Hf) as Hsel.
      rewrite iterrows_frame in Hsel.
      destruct (existsb (fallback_pred cols) rs) eqn:Hex; cbn [negb].
      - apply not_true_is_false. rewrite df_empty_true.
        apply existsb_exists in Hex as (r & Hin%list_elem_of_In & Hr').
        assert (r ∈ iterrows (select (frame cols rs)
                  (or_patterns (frame cols rs) "Specialty" fallback_specialties
                     (series_false (length (rows (frame cols rs))))))) as Hin'.
        { rewrite Hsel. apply list_elem_of_filter. split; [|done].
          apply Is_true_true. exact Hr'. }
        intros [Hc|Hrows].
        + simpl in Hc. subst cols. unfold fallback_pred in Hr'.
          by rewrite bool_decide_eq_false_2 in Hr' by apply not_elem_of_nil.
        + apply iterrows_nil in Hrows. rewrite Hrows in Hin'.
          by apply elem_of_nil in Hin'.
      - apply df_empty_true. right. apply iterrows_nil. rewrite Hsel.
        apply existsb_false_Forall in Hex.
        apply (filter_none (λ r, false || fallback_pred cols r)).
        eapply Forall_impl; [exact Hex|]. by intros r ->. }
    destruct (existsb (fallback_pred cols) rs); cbv beta iota.
    + by rewrite (select_filter _ _ _ Hr Hf).
    + by rewrite (select_filter _ _ _ Hr Hs).
  - rewrite andb_false_l. by rewrite (select_filter _ _ _ Hr Hs).
Qed.

(** The doctor pipeline on a loaded dataset is a plain filter of its rows. *)
Lemma doctor_pipeline_rows cols rs filters :
  filter_pipeline "find_doctor" filters (frame cols rs) =
    {| columns := cols;
       rows := filter (λ lr : nat * Row, doctor_keep cols filters rs lr.2)
                 (rows (frame cols rs)) |}.
Proof.
  unfold filter_pipeline, location_stage, doctor_keep.
  rewrite andb_false_r, andb_true_r.
  set (K1 := λ r, if Py.truthy (filters !! "Specialty")
                  then spec_keep cols (default "" (filters !! "Specialty")) rs r
                  else true).
  assert ((if Py.truthy (filters !! "Specialty")
           then specialty_stage (frame cols rs) (default "" (filters !! "Specialty"))
           else frame cols rs)
          = {| columns := cols;
               rows := filter (λ lr : nat * Row, K1 lr.2) (rows (frame cols rs)) |})
    as ->.
  { unfold K1. destruct (Py.truthy (filters !! "Specialty")).
    - apply specialty_stage_rows.
    - unfold frame at 1. f_equal. symmetry.
      apply (filter_all (λ lr : nat * Row, true)). by apply Forall_forall. }
  set (K2 := λ r, if Py.truthy (filters !! "Languages") && bool_decide ("Languages" ∈ cols)
                  then lang_pred (default "" (filters !! "Languages")) r else true).
  set (df1 := {| columns := cols;
                 rows := filter (λ lr : nat * Row, K1 lr.2) (rows (frame cols rs)) |}).
  assert ((if Py.truthy (filters !! "Languages") && has_column df1 "Languages"
           then language_stage df1 (default "" (filters !! "Languages"))
           else df1)
          = {| columns := cols;
               rows := filter (λ lr : nat * Row, K1 lr.2 && K2 lr.2)
                         (rows (frame cols rs)) |}) as ->.
  { unfold K2. change (has_column df1 "Languages") with (bool_decide ("Languages" ∈ cols)).
    destruct (Py.truthy (filters !! "Languages") && bool_decide ("Languages" ∈ cols)).
    - unfold language_stage. rewrite select_own by apply filter_rows_NoDup.
      unfold df1. cbn [columns rows]. f_equal.
      apply (filter_filter_and (λ lr : nat * Row, K1 lr.2)
               (λ lr : nat * Row, lang_pred (default "" (filters !! "Languages")) lr.2)).
    - unfold df1. f_equal. apply filter_ext_in, Forall_forall.
      intros lr _. by rewrite andb_true_r. }
  set (df2 := {| columns := cols;
                 rows := filter (λ lr : nat * Row, K1 lr.2 && K2 lr.2)
                           (rows (frame cols rs)) |}).
  destruct (Py.truthy (filters !! "Area")).
  - unfold doctor_location_stage, doctor_loc_pred.
    change (has_column df2 "Area") with (bool_decide ("Area" ∈ cols)).
    destruct (bool_decide ("Area" ∈ cols)) eqn:Harea.
    + change (has_column df2 "Area") with (bool_decide ("Area" ∈ cols)).
      rewrite Harea. rewrite select_own by apply (filter_rows_NoDup (λ r, K1 r && K2 r)).
      unfold df2. cbn [columns rows]. f_equal.
      apply (filter_filter_and (λ lr : nat * Row, K1 lr.2 && K2 lr.2)
               (λ lr : nat * Row,
                  str_contains (default "" (filters !! "Area")) (row_get lr.2 "Area"))).
    + change (has_column df2 "Address") with (bool_decide ("Address" ∈ cols)).
      destruct (bool_decide ("Address" ∈ cols)).
      * rewrite select_own by apply (filter_rows_NoDup (λ r, K1 r && K2 r)).
        unfold df2. cbn [columns rows]. f_equal.
        apply (filter_filter_and (λ lr : nat * Row, K1 lr.2 && K2 lr.2)
                 (λ lr : nat * Row,
                    str_contains (default "" (filters !! "Area"))
                      (row_get lr.2 "Address"))).
      * unfold df2. f_equal. apply filter_ext_in, Forall_forall.
        intros lr _. by rewrite andb_true_r.
  - unfold df2. f_equal. apply filter_ext_in, Forall_forall.
    intros lr _. by rewrite andb_true_r.
Qed.

Lemma spec_keep_stable cols specialty_filter rs (P : Row → bool) r :
  (∀ r', P r' = true → spec_keep cols specialty_filter rs r' = true) →
  r ∈ filter (λ r, P r) rs →
  spec_keep cols specialty_filter (filter (λ r, P r) rs) r = true.
Proof.
  intros HP Hin. pose proof Hin as [Hr _]%list_elem_of_filter.
  apply Is_true_true, HP in Hr. revert Hr. unfold spec_keep.
  destruct (is_paediatric _); [|done]. rewrite !andb_true_l.
  destruct (existsb (fallback_pred cols) rs) eqn:Hex; intros Hr.
  - assert (existsb (fallback_pred cols) (filter (λ r, P r) rs) = true) as ->; [|done].
    apply existsb_exists. exists r. split; [|done]. by apply list_elem_of_In.
  - assert (existsb (fallback_pred cols) (filter (λ r, P r) rs) = false) as ->; [|done].
    apply existsb_false_Forall, Forall_forall.
    intros r' [_ Hin']%list_elem_of_filter.
    apply existsb_false_Forall in Hex. rewrite Forall_forall in Hex. by apply Hex.
Qed.

(** Rebuilding the default index between two passes makes the doctor pipeline
    idempotent: the second pass returns the rows of the first, in order. *)
Lemma doctor_pipeline_idempotent_reindexed cols rs filters :
  let once := filter_pipeline "find_doctor" filters (frame cols rs) in
  iterrows (filter_pipeline "find_doctor" filters
              (frame (columns once) (iterrows once)))
  = iterrows once.
Proof.
  intros once.
  assert (∀ rs', iterrows (filter_pipeline "find_doctor" filters (frame cols rs'))
                 = filter (λ r, doctor_keep cols filters rs' r) rs') as Hrows.
  { intros rs'. rewrite doctor_pipeline_rows. unfold iterrows. cbn [rows].
    rewrite (filter_snd (doctor_keep cols filters rs')).
    unfold frame. cbn [rows]. by rewrite enumerate_from_snd. }
  assert (columns once = cols) as -> by (unfold once; by rewrite doctor_pipeline_rows).
  unfold once. rewrite !Hrows.
  set (kept := filter (λ r, doctor_keep cols filters rs r) rs).
  apply filter_all, Forall_forall. intros r Hin.
  pose proof Hin as [Hr _]%list_elem_of_filter. apply Is_true_true in Hr.
  unfold doctor_keep in Hr |- *.
  apply andb_true_iff in Hr as [[H1 H2]%andb_true_iff H3].
  rewrite H2, H3, !andb_true_r.
  destruct (Py.truthy (filters !! "Specialty")) eqn:Hspec; [|done].
  apply spec_keep_stable; [|exact Hin].
  intros r' Hr'. unfold doctor_keep in Hr'. rewrite Hspec in Hr'.
  by apply andb_true_iff in Hr' as [[? _]%andb_true_iff _].
Qed.

(** * Further properties of the engine *)

(** ** The postal distance as a closed form *)

(** Every entry of the hop table is the numeric gap between its two
    sectors. *)
Lemma area_distances_gap :
  map_Forall (λ (k : Z * Z) (hops : Z), hops = k.2 - k.1 ∧ 0 < hops) area_distances.
Proof. compute_done. Qed.

Lemma sorted_pair_gap a b :
  (sorted_pair a b).2 - (sorted_pair a b).1 = Z.abs (a - b).
Proof. unfold sorted_pair. destruct (Z.leb_spec a b); simpl; lia. Qed.

Lemma postal_distance_same (postal1 postal2 : Z) :
  postal1 / 10000 = postal2 / 10000 →
  calculate_postal_distance postal1 postal2 = inject_Z (Z.abs (postal1 - postal2)).
Proof.
  intros Hs. unfold calculate_postal_distance.
  by rewrite (proj2 (Z.eqb_eq _ _) Hs).
Qed.

Lemma postal_distance_cross (postal1 postal2 : Z) :
  postal1 / 10000 ≠ postal2 / 10000 →
  calculate_postal_distance postal1 postal2 =
    (inject_Z (Z.abs (postal1 / 10000 - postal2 / 10000) * 10000)
     + Qmake (Z.abs (postal1 mod 10000 - postal2 mod 10000)) 100)%Q.
Proof.
  intros Hs. unfold calculate_postal_distance.
  rewrite (proj2 (Z.eqb_neq _ _) Hs).
  destruct (area_distances !! sorted_pair (postal1 / 10000) (postal2 / 10000))
    as [hops|] eqn:Hl; [|done].
  apply area_distances_gap in Hl as [-> _]. by rewrite sorted_pair_gap.
Qed.

(** The hop table never changes the result: across sectors the distance is
    the sector gap times 10000 plus a hundredth of the gap between the last
    four digits, whether or not the pair of sectors is listed. *)
Theorem postal_distance_closed_form (postal1 postal2 : Z) :
  calculate_postal_distance postal1 postal2 =
    if postal1 / 10000 =? postal2 / 10000
    then inject_Z (Z.abs (postal1 - postal2))
    else (inject_Z (Z.abs (postal1 / 10000 - postal2 / 10000) * 10000)
          + Qmake (Z.abs (postal1 mod 10000 - postal2 mod 10000)) 100)%Q.
Proof.
  destruct (Z.eqb_spec (postal1 / 10000) (postal2 / 10000)) as [Hs|Hs].
  - by apply postal_distance_same.
  - by apply postal_distance_cross.
Qed.


Lemma cross_sector_far (gap sub : Z) :
  0 < gap → 0 <= sub → (inject_Z 10000 <= inject_Z (gap * 10000) + Qmake sub 100)%Q.
Proof.
  intros Hg Hs. unfold Qle, Qplus, inject_Z. simpl. nia.
Qed.

(** The distance is never negative, and it is zero exactly for two equal
    codes. *)
Theorem postal_distance_zero_iff (a b : Z) :
  (0 <= calculate_postal_distance a b)%Q
  ∧ ((calculate_postal_distance a b == 0)%Q ↔ a = b).
Proof.
  destruct (Z.eqb_spec (a / 10000) (b / 10000)) as [Hs|Hs];
    [rewrite (postal_distance_same _ _ Hs)|rewrite (postal_distance_cross _ _ Hs)].
  - split.
    + unfold Qle, inject_Z. simpl. lia.
    + unfold Qeq, inject_Z. simpl. lia.
  - pose proof (cross_sector_far (Z.abs (a / 10000 - b / 10000))
                  (Z.abs (a mod 10000 - b mod 10000)) ltac:(lia) ltac:(lia)) as Hfar.
    split.
    + eapply Qle_trans; [|exact Hfar]. done.
    + split.
      * intros Hz. rewrite Hz in Hfar. by apply Qle_not_lt in Hfar.
      * intros ->. done.
Qed.



(** ** The correction table *)

(** No corrected name is itself a key of the table, and none is a paediatric
    label. *)
Lemma corrections_values :
  map_Forall (λ (k c : string),
                specialty_corrections !! c = None
                ∧ is_paediatric (Py.lower c) = false
                ∧ (is_paediatric (Py.lower k) = true → k = "Paediatric" ∨ k = "Pediatric"))
    specialty_corrections.
Proof. compute_done. Qed.

(** Correcting a specialty name twice is the same as correcting it once. *)
Theorem corrected_idempotent (specialty_filter : string) :
  corrected (corrected specialty_filter) = corrected specialty_filter.
Proof.
  unfold corrected at 2 3.
  destruct (specialty_corrections !! specialty_filter) as [c|] eqn:Hl.
  - apply corrections_values in Hl as (Hc & _). unfold corrected. by rewrite Hc.
  - unfold corrected. by rewrite Hl.
Qed.

(** The paediatric branch of the specialty stage is entered for every
    spelling of "paediatric"/"pediatric" except the two the table corrects,
    "Paediatric" and "Pediatric", which are searched as "Family & Community
    Medicine" like any other specialty. *)
Theorem paediatric_branch_reached (specialty_filter : string) :
  is_paediatric (Py.lower (corrected specialty_filter)) = true
  ↔ is_paediatric (Py.lower specialty_filter) = true
    ∧ specialty_filter ≠ "Paediatric" ∧ specialty_filter ≠ "Pediatric".
Proof.
  unfold corrected.
  destruct (specialty_corrections !! specialty_filter) as [c|] eqn:Hl.
  - apply corrections_values in Hl as (_ & Hc & Hk). rewrite Hc. split; [done|].
    intros (Hp & H1 & H2). destruct (Hk Hp); congruence.
  - split; [|by intros (? & _)].
    intros Hp. split; [done|]. split; intros ->; discriminate Hl.
Qed.

(** ** Case of the location filter *)
















(** ** Postal codes read from an address *)

(** [re.search(r'Singapore\s+(\d{6})', address)] as a string: the group of
    the leftmost match. *)
Fixpoint search_postal (address : string) : option string :=
  match match_postal_at address with
  | Some digits => Some digits
  | None =>
      match address with
      | String _ s' => search_postal s'
      | EmptyString => None
      end
  end.

Lemma extract_postal_search address :
  extract_postal address = Py.int <$> search_postal address.
Proof.
  induction address as [|c s IH]; simpl.
  - by destruct (match_postal_at "").
  - by destruct (match_postal_at (String c s)).
Qed.

Lemma match_postal_at_digits s digits :
  match_postal_at s = Some digits →
  String.length digits = 6%nat ∧ Py.all_digits digits = true.
Proof.
  unfold match_postal_at. destruct (Py.startswith "Singapore" s); [|done].
  destruct (drop_chars 9 s) as [|c rest]; [done|].
  destruct (Py.is_space c); [|done].
  destruct (_ && _) eqn:Hok; [|done].
  intros [= <-]. apply andb_true_iff in Hok as [Hl Hd].
  by apply Nat.eqb_eq in Hl.
Qed.

Lemma search_postal_digits address digits :
  search_postal address = Some digits →
  String.length digits = 6%nat ∧ Py.all_digits digits = true.
Proof.
  induction address as [|c s IH]; [done|]. cbn [search_postal].
  destruct (match_postal_at (String c s)) eqn:Hm; [|done].
  intros [= <-]. by eapply match_postal_at_digits.
Qed.

Lemma digit_val_bound c : Py.is_digit c = true → 0 <= Py.digit_val c <= 9.
Proof.
  unfold Py.is_digit, Py.digit_val.
  intros [?%Nat.leb_le ?%Nat.leb_le]%andb_true_iff. lia.
Qed.

Lemma int_go_bound digits acc :
  Py.all_digits digits = true → 0 <= acc →
  acc * 10 ^ Z.of_nat (String.length digits) <= Py.int_go acc digits
  < (acc + 1) * 10 ^ Z.of_nat (String.length digits).
Proof.
  revert acc. induction digits as [|c s IH]; intros acc Hd Hacc.
  - simpl. lia.
  - simpl in Hd. apply andb_true_iff in Hd as [Hc Hs].
    pose proof (digit_val_bound c Hc).
    cbn [Py.int_go String.length].
    specialize (IH (10 * acc + Py.digit_val c) Hs ltac:(lia)).
    rewrite Nat2Z.inj_succ, Z.pow_succ_r by lia.
    assert (0 < 10 ^ Z.of_nat (String.length s)) by (apply Z.pow_pos_nonneg; lia).
    nia.
Qed.

(** A postal code read from an address is a number of at most six digits. *)
Theorem extract_postal_range address clinic_postal :
  extract_postal address = Some clinic_postal → 0 <= clinic_postal <= 999999.
Proof.
  rewrite extract_postal_search.
  destruct (search_postal address) as [digits|] eqn:Hs; [|done].
  intros [= <-]. apply search_postal_digits in Hs as [Hl Hd].
  pose proof (int_go_bound digits 0 Hd ltac:(lia)) as Hb.
  rewrite Hl in Hb. unfold Py.int. simpl in Hb. lia.
Qed.

Lemma extract_postal_range_witness :
  extract_postal "Blk 526 Jurong West Street 52 Singapore 640526" = Some 640526
  ∧ 0 <= 640526 <= 999999.
Proof.
  split; [reflexivity|].
  exact (extract_postal_range "Blk 526 Jurong West Street 52 Singapore 640526"
           640526 eq_refl).
Defined.

Fixpoint all_spaces (s : string) : bool :=
  match s with
  | EmptyString => true
  | String c s' => Py.is_space c && all_spaces s'
  end.

Lemma digit_not_space c : Py.is_digit c = true → Py.is_space c = false.
Proof. destruct c as [[] [] [] [] [] [] [] []]; (reflexivity || discriminate). Qed.

Lemma skip_spaces_app ws s :
  all_spaces ws = true → skip_spaces (ws +:+ s) = skip_spaces s.
Proof.
  induction ws as [|c ws IH]; simpl; [done|].
  intros [-> Hws]%andb_true_iff. by apply IH.
Qed.

Lemma substring_prefix s rest :
  substring 0 (String.length s) (s +:+ rest) = s.
Proof.
  induction s as [|c s IH]; simpl; [by destruct rest|]. by rewrite IH.
Qed.

(** The group of the pattern on an address that starts with the marker. *)
Lemma match_postal_at_marker ws digits rest :
  ws ≠ "" → all_spaces ws = true →
  String.length digits = 6%nat → Py.all_digits digits = true →
  match_postal_at ("Singapore" +:+ ws +:+ digits +:+ rest) = Some digits.
Proof.
  intros Hne Hws Hl Hd. unfold match_postal_at.
  change (Py.startswith "Singapore" ("Singapore" +:+ ws +:+ digits +:+ rest)) with true.
  change (drop_chars 9 ("Singapore" +:+ ws +:+ digits +:+ rest))
    with (ws +:+ digits +:+ rest).
  destruct ws as [|c ws]; [done|]. simpl in Hws.
  apply andb_true_iff in Hws as [Hc Hws].
  change (String c ws +:+ digits +:+ rest) with (String c (ws +:+ digits +:+ rest)).
  cbv beta iota. rewrite Hc, skip_spaces_app by done.
  assert (skip_spaces (digits +:+ rest) = digits +:+ rest) as ->.
  { destruct digits as [|d digits]; [done|]. simpl in Hd |- *.
    apply andb_true_iff in Hd as [Hd _]. by rewrite (digit_not_space d Hd). }
  assert (substring 0 6 (digits +:+ rest) = digits) as ->
    by (rewrite <-Hl; apply substring_prefix).
  by rewrite Hl, Hd.
Qed.

(** Reading back a code written after the marker: "Singapore", white space
    and six digits give those six digits, whatever follows them, further
    digits included. *)
Theorem extract_postal_after_marker ws digits rest :
  ws ≠ "" → all_spaces ws = true →
  String.length digits = 6%nat → Py.all_digits digits = true →
  extract_postal ("Singapore" +:+ ws +:+ digits +:+ rest) = Some (Py.int digits).
Proof.
  intros Hne Hws Hl Hd.
  pose proof (match_postal_at_marker ws digits rest Hne Hws Hl Hd) as Hm.
  change ("Singapore" +:+ ws +:+ digits +:+ rest)
    with (String "S" ("ingapore" +:+ ws +:+ digits +:+ rest)) in *.
  cbn [extract_postal]. by rewrite Hm.
Qed.

Lemma extract_postal_after_marker_witness :
  " " ≠ "" ∧ all_spaces " " = true
  ∧ String.length "179094" = 6%nat ∧ Py.all_digits "179094" = true
  ∧ extract_postal ("Singapore" +:+ " " +:+ "179094" +:+ "7") = Some 179094.
Proof.
  split; [discriminate|]. split; [reflexivity|].
  split; [reflexivity|]. split; [reflexivity|].
  exact (extract_postal_after_marker " " "179094" "7" ltac:(discriminate)
           eq_refl eq_refl eq_refl).
Defined.

(** ** What [search] returns: size, provenance, exceptions *)


Lemma rank_clinics_length loc_key fdf : (length (rank_clinics loc_key fdf) ≤ 20)%nat.
Proof. rewrite rank_clinics_tiers, !length_app, !length_take. lia. Qed.

Lemma doctor_name_search_length `{RapidFuzz} keywords fdf rs :
  doctor_name_search keywords fdf = inr rs → (length rs ≤ 10)%nat.
Proof.
  destruct (has_column fdf "Name") eqn:Hname.
  - destruct (doctor_name_search_cases keywords fdf Hname) as (rs' & Hrows & ->).
    intros [= <-]. apply Forall2_length in Hrows.
    assert (length (final_matches keywords fdf) ≤ 5)%nat
      by (unfold final_matches; rewrite length_take; lia).
    destruct rs'; [rewrite length_take|]; lia.
  - unfold doctor_name_search, name_column. by rewrite Hname.
Qed.

Lemma rank_length `{RapidFuzz} intent loc_key keywords fdf rs :
  rank intent loc_key keywords fdf = inr rs →
  (length rs ≤ 20)%nat ∧ (intent = "find_doctor" → (length rs ≤ 10)%nat).
Proof.
  unfold rank. destruct (df_empty fdf); simpl.
  { intros [= <-]. simpl. lia. }
  destruct (String.eqb_spec intent "find_clinic") as [->|Hi].
  - destruct (Py.truthy loc_key); intros [= <-]; (split; [|by intros ?]).
    + apply rank_clinics_length.
    + rewrite length_take. lia.
  - destruct (_ && _).
    + intros Hs%doctor_name_search_length. lia.
    + intros [= <-]. rewrite length_take. split; [destruct (String.eqb _ _); lia|].
      intros ->. apply Nat.le_min_l.
Qed.

(** [search] never returns more than 20 rows, and never more than 10 for a
    doctor query. *)
Theorem search_result_size `{RapidFuzz} df_c df_d thought rs meta :
  search df_c df_d thought = inr (rs, meta) →
  (length rs ≤ 20)%nat
  ∧ (∀ plan, thought = Some plan → plan_intent plan = "find_doctor" →
             (length rs ≤ 10)%nat).
Proof.
  unfold search.
  destruct df_c as [dc|], df_d as [dd|]; try (intros [= <- _]; simpl; split; [lia|]; intros; lia).
  destruct thought as [plan|]; [|intros [= <- _]; simpl; split; [lia|]; intros; lia].
  destruct (plan_is_empty plan); [intros [= <- _]; simpl; split; [lia|]; intros; lia|].
  destruct (rank _ _ _ _) as [e|rs'] eqn:Hrank; simpl; [done|].
  intros [= <- _]. apply rank_length in Hrank as [H20 H10].
  split; [done|]. intros plan' [= <-] Hi. by apply H10.
Qed.

Lemma search_result_size_witness :
  search (H := indel_scorers) (Some (frame clinic_columns three_clinics))
    (Some (frame doctor_columns seven_ngs)) (Some plan_dr_l)
  = inr (seven_ngs, PlanOf plan_dr_l)
  ∧ (length seven_ngs ≤ 20)%nat.
Proof.
  assert (search (H := indel_scorers) (Some (frame clinic_columns three_clinics))
            (Some (frame doctor_columns seven_ngs)) (Some plan_dr_l)
          = inr (seven_ngs, PlanOf plan_dr_l)) as Hs by (vm_compute; reflexivity).
  split; [exact Hs|].
  exact (proj1 (search_result_size (H := indel_scorers) _ _ _ _ _ Hs)).
Defined.

(** *** Provenance *)

Lemma select_rows_subseteq df m : iterrows (select df m) ⊆ iterrows df.
Proof.
  unfold iterrows, select. simpl. intros r (lr & -> & Hin)%list_elem_of_fmap.
  apply list_elem_of_filter in Hin as [_ Hin]. apply list_elem_of_fmap. by exists lr.
Qed.

Lemma specialty_stage_subseteq df specialty_filter :
  iterrows (specialty_stage df specialty_filter) ⊆ iterrows df.
Proof.
  unfold specialty_stage.
  destruct (is_paediatric _); [destruct (df_empty _)|]; apply select_rows_subseteq.
Qed.

(** A row of the dataset [df], as it is or with the distance of its postal
    code to the query attached. *)
Definition row_from (df : DataFrame) (query_postal : Z) (r : Row) : Prop :=
  r ∈ iterrows df
  ∨ ∃ r0 clinic_postal,
      r0 ∈ iterrows df
      ∧ extract_postal (row_get r0 "Address") = Some clinic_postal
      ∧ r = with_distance r0 (calculate_postal_distance query_postal clinic_postal).

Lemma located_row_from df query_postal r0 r :
  r0 ∈ iterrows df → located query_postal r0 = Some r → row_from df query_postal r.
Proof.
  unfold located. intros Hin Hl.
  destruct (extract_postal (row_get r0 "Address")) as [code|] eqn:He; [|done].
  injection Hl as <-. right. by exists r0, code.
Qed.

Lemma postal_stage_row_from df loc_key r :
  r ∈ iterrows (postal_stage df loc_key) → row_from df (Py.int loc_key) r.
Proof.
  unfold postal_stage. rewrite collect_distances_omap. fold (iterrows df).
  destruct (omap _ _) as [|x found] eqn:Hfound.
  { by intros ?%elem_of_nil. }
  rewrite iterrows_frame. intros Hin%subseteq_take.
  rewrite sort_by_perm, <-Hfound in Hin.
  apply list_elem_of_omap in Hin as (r0 & Hin & Hl). by eapply located_row_from.
Qed.

Lemma filter_pipeline_row_from intent filters df r :
  r ∈ iterrows (filter_pipeline intent filters df) →
  row_from df (Py.int (default "" (filters !! "Area"))) r.
Proof.
  unfold filter_pipeline.
  set (df1 := if Py.truthy (filters !! "Specialty") then _ else _).
  set (df2 := if Py.truthy (filters !! "Languages") && _ then _ else _).
  assert (iterrows df1 ⊆ iterrows df) as H1.
  { unfold df1. destruct (Py.truthy _); [apply specialty_stage_subseteq|done]. }
  assert (iterrows df2 ⊆ iterrows df) as H2.
  { unfold df2. destruct (_ && _); [|done].
    etransitivity; [apply select_rows_subseteq|done]. }
  unfold location_stage, area_stage, doctor_location_stage.
  repeat match goal with
         | |- context [if ?b then _ else _] => destruct b
         end;
    try (intros Hin; left; apply H2; first [exact Hin | by eapply select_rows_subseteq]).
  intros Hin%postal_stage_row_from. destruct Hin as [Hin|(r0 & code & Hin & ? & ?)].
  - left. by apply H2.
  - right. exists r0, code. split; [by apply H2|done].
Qed.

Lemma rank_clinics_subseteq loc_key fdf : rank_clinics loc_key fdf ⊆ iterrows fdf.
Proof.
  rewrite rank_clinics_tiers. intros r.
  rewrite !elem_of_app.
  intros [Hin|[Hin|Hin]]; apply subseteq_take in Hin;
    by apply list_elem_of_filter in Hin as [_ ?].
Qed.

Lemma rank_subseteq `{RapidFuzz} intent loc_key keywords fdf rs :
  rank intent loc_key keywords fdf = inr rs → rs ⊆ iterrows fdf.
Proof.
  unfold rank. destruct (df_empty fdf); simpl.
  { intros [= <-]. by intros r ?%elem_of_nil. }
  destruct (String.eqb intent "find_clinic").
  - destruct (Py.truthy loc_key); intros [= <-];
      [apply rank_clinics_subseteq|apply subseteq_take].
  - destruct (_ && _); [|intros [= <-]; apply subseteq_take].
    destruct (has_column fdf "Name") eqn:Hname.
    + destruct (doctor_name_search_cases keywords fdf Hname) as (rs' & Hrows & ->).
      intros [= <-]. destruct rs' as [|r' rs'].
      * intros r Hin%subseteq_take. by apply list_elem_of_filter in Hin as [_ ?].
      * intros r Hin. unfold rows_of in Hrows.
        apply list_elem_of_lookup in Hin as [i Hi].
        destruct (Forall2_lookup_r _ _ _ _ _ Hrows Hi) as (m & _ & Hm & _).
        by eapply list_elem_of_lookup_2.
    + unfold doctor_name_search, name_column. by rewrite Hname.
Qed.

(** Every row [search] returns is a row of the dataset chosen by the intent
    (clinics for "find_clinic", doctors otherwise), unchanged except that a
    postal search attaches the distance of the row's own postal code. *)
Theorem search_returns_dataset_rows `{RapidFuzz} df_c df_d plan rs meta :
  search (Some df_c) (Some df_d) (Some plan) = inr (rs, meta) →
  let target_df := if String.eqb (plan_intent plan) "find_clinic" then df_c else df_d in
  let query_postal := Py.int (default "" (plan_filters plan !! "Area")) in
  Forall (row_from target_df query_postal) rs.
Proof.
  unfold search. destruct (plan_is_empty plan); [intros [= <- _]; constructor|].
  destruct (rank _ _ _ _) as [e|rs'] eqn:Hrank; simpl; [done|].
  intros [= <- _]. apply rank_subseteq in Hrank.
  apply Forall_forall. intros r Hin.
  eapply filter_pipeline_row_from. apply Hrank, Hin.
Qed.

Lemma search_returns_dataset_rows_witness :
  search (H := indel_scorers) (Some (frame clinic_columns bedok_clinics))
    (Some (frame doctor_columns two_doctors)) (Some (clinic_plan "Bedok"))
  = inr ([clinic "Tampines Medical" "2 Tampines Street 11 Singapore 520002" "Tampines"],
         PlanOf (clinic_plan "Bedok"))
  ∧ Forall (row_from (frame clinic_columns bedok_clinics) (Py.int "Bedok"))
      [clinic "Tampines Medical" "2 Tampines Street 11 Singapore 520002" "Tampines"].
Proof.
  assert (search (H := indel_scorers) (Some (frame clinic_columns bedok_clinics))
            (Some (frame doctor_columns two_doctors)) (Some (clinic_plan "Bedok"))
          = inr ([clinic "Tampines Medical" "2 Tampines Street 11 Singapore 520002"
                    "Tampines"], PlanOf (clinic_plan "Bedok"))) as Hs
    by (vm_compute; reflexivity).
  split; [exact Hs|].
  exact (search_returns_dataset_rows (H := indel_scorers) _ _ _ _ _ Hs).
Defined.

(** *** Exceptions *)




(** *** Candidates with the same name *)

Lemma dict_set_keys {V} (d : list (string * V)) k v :
  (dict_set d k v).*1 = if bool_decide (k ∈ d.*1) then d.*1 else d.*1 ++ [k].
Proof.
  induction d as [|[k' v'] d IH]; simpl; [done|].
  destruct (String.eqb_spec k k') as [->|Hne].
  - rewrite bool_decide_eq_true_2 by left. done.
  - csimpl. rewrite IH. destruct (bool_decide_reflect (k ∈ d.*1)) as [Hin|Hin].
    + rewrite bool_decide_eq_true_2 by (by right). done.
    + rewrite bool_decide_eq_false_2; [done|].
      intros [?|?]%elem_of_cons; done.
Qed.

Lemma dict_set_NoDup {V} (d : list (string * V)) k v :
  NoDup d.*1 → NoDup (dict_set d k v).*1.
Proof.
  intros Hd. rewrite dict_set_keys.
  destruct (bool_decide_reflect (k ∈ d.*1)) as [Hin|Hin]; [done|].
  apply NoDup_app. split; [done|]. split; [|apply NoDup_singleton].
  intros x Hx ->%list_elem_of_singleton. done.
Qed.

Lemma fuse_NoDup strategy_name matches all_matches :
  NoDup all_matches.*1 → NoDup (fuse strategy_name matches all_matches).*1.
Proof.
  unfold fuse. revert all_matches.
  induction matches as [|[[name score] idx] matches IH]; intros d Hd; simpl; [done|].
  apply IH. repeat case_match; try done; by apply dict_set_NoDup.
Qed.

Lemma to_match_name (l : list (string * Best)) :
  (λ m : Match, m.1.1) <$> (to_match <$> l) = l.*1.
Proof. rewrite <-list_fmap_compose. by apply list_fmap_ext. Qed.

Lemma select_final_sublist exact_matches fuzzy_matches :
  select_final exact_matches fuzzy_matches `sublist_of` exact_matches ++ fuzzy_matches.
Proof.
  unfold select_final. destruct (3 <=? length exact_matches)%nat.
  - apply sublist_inserts_r, sublist_take.
  - apply sublist_app; [done|].
    etransitivity; [apply sublist_take|apply sublist_filter].
Qed.

(** The fused selection never holds two entries with the same name: doctors
    who share a name are represented by one row. *)
Lemma final_matches_distinct `{RapidFuzz} keywords fdf :
  NoDup ((λ m : Match, m.1.1) <$> final_matches keywords fdf).
Proof.
  unfold final_matches.
  set (names := (λ r, row_get r "Name") <$> iterrows fdf).
  rewrite tiers_spec. cbn [fst snd].
  set (sorted := sort_by _ (fused keywords names)).
  eapply sublist_NoDup; [|apply fmap_sublist; etransitivity;
                           [apply sublist_take|apply select_final_sublist]].
  rewrite fmap_app, !to_match_name, <-fmap_app.
  assert (filter (λ e : string * Best, is_exact keywords e.1) sorted
          ++ filter (λ e : string * Best, negb (is_exact keywords e.1)) sorted
          ≡ₚ fused keywords names) as ->.
  { transitivity sorted; [|apply sort_by_perm].
    rewrite <-(filter_app_complement (λ e : string * Best, is_exact keywords e.1) sorted)
      at 3.
    f_equiv. apply reflexive_eq, list_filter_iff. intros e.
    destruct (is_exact keywords e.1); naive_solver. }
  unfold fused. repeat apply fuse_NoDup. constructor.
Qed.

(** When the fusion selects anything, the rows returned by the name search
    bear pairwise distinct names. *)
Theorem name_search_distinct_names `{RapidFuzz} keywords fdf :
  has_column fdf "Name" = true →
  final_matches keywords fdf ≠ [] →
  ∃ rs, doctor_name_search keywords fdf = inr rs
        ∧ NoDup ((λ r, row_get r "Name") <$> rs).
Proof.
  intros Hname Hfin.
  destruct (doctor_name_search_cases keywords fdf Hname) as (rs & Hrows & ->).
  destruct rs as [|r rs].
  { apply Forall2_length in Hrows. by destruct (final_matches keywords fdf). }
  exists (r :: rs). split; [done|].
  assert ((λ r, row_get r "Name") <$> (r :: rs)
          = (λ m : Match, m.1.1) <$> final_matches keywords fdf) as ->;
    [|apply final_matches_distinct].
  revert Hrows. unfold rows_of. generalize (final_matches keywords fdf) (r :: rs).
  induction 1 as [|m r' ms rs' [_ Hn] _ IH]; [done|]. csimpl. by rewrite Hn, IH.
Qed.

Definition namesakes : list Row :=
  [ doctor "Low Kim Seng" "Cardiology" "English" "" "Consultant";
    doctor "Low Kim Seng" "Neurology" "Mandarin" "" "Senior Consultant";
    doctor "Tan Wei Ming" "Urology" "English" "" "Consultant" ].

Lemma name_search_distinct_names_witness :
  has_column (frame doctor_columns namesakes) "Name" = true
  ∧ final_matches (H := indel_scorers) "low" (frame doctor_columns namesakes) ≠ []
  ∧ fmap (M := result) (fmap (λ r, (row_get r "Name", row_get r "Specialty")))
      (doctor_name_search (H := indel_scorers) "low" (frame doctor_columns namesakes))
    = inr [("Low Kim Seng", "Cardiology")].
Proof.
  split; [reflexivity|].
  assert (final_matches (H := indel_scorers) "low" (frame doctor_columns namesakes) ≠ [])
    as Hfin by (vm_compute; discriminate).
  split; [exact Hfin|].
  destruct (name_search_distinct_names (H := indel_scorers) "low"
              (frame doctor_columns namesakes) eq_refl Hfin) as (rs & Hrs & _).
  rewrite Hrs. vm_compute in Hrs. injection Hrs as <-. vm_compute. reflexivity.
Defined.

(** ** The postal stage applied to its own output *)

Lemma with_distance_idempotent r d : with_distance (with_distance r d) d = with_distance r d.
Proof. unfold with_distance. simpl. by rewrite delete_delete_eq. Qed.

Lemma with_distance_address r d :
  row_get (with_distance r d) "Address" = row_get r "Address".
Proof. unfold row_get, with_distance. simpl. by rewrite lookup_delete_ne. Qed.

Lemma located_fixed query_postal r x :
  located query_postal r = Some x → located query_postal x = Some x.
Proof.
  unfold located.
  destruct (extract_postal (row_get r "Address")) as [code|] eqn:He; [|done].
  intros [= <-]. rewrite with_distance_address, He. simpl.
  by rewrite with_distance_idempotent.
Qed.

Lemma omap_fixed {A} (f : A → option A) l :
  Forall (λ x, f x = Some x) l → omap f l = l.
Proof. induction 1 as [|x l Hx _ IH]; csimpl; [done|]. by rewrite Hx, IH. Qed.

Lemma columns_with_distance_twice df rs :
  columns_with_distance (frame (columns_with_distance df) rs)
  = columns_with_distance df.
Proof.
  unfold columns_with_distance at 1. unfold has_column, frame. simpl.
  rewrite bool_decide_eq_true_2; [done|].
  unfold columns_with_distance. destruct (has_column df "_distance") eqn:Hc.
  - by apply bool_decide_eq_true in Hc.
  - apply elem_of_app. right. left.
Qed.

Lemma postal_stage_found df loc_key :
  postal_stage df loc_key =
    match omap (located (Py.int loc_key)) (iterrows df) with
    | [] => empty_frame
    | _ :: _ =>
        frame (columns_with_distance df)
          (take 20 (sort_by distance_leb
                      (omap (located (Py.int loc_key)) (iterrows df))))
    end.
Proof. unfold postal_stage. by rewrite collect_distances_omap. Qed.

(** The postal stage is idempotent: run on its own output with the same
    query code, it returns that output unchanged, distances and order
    included. *)
Theorem postal_stage_idempotent df loc_key :
  postal_stage (postal_stage df loc_key) loc_key = postal_stage df loc_key.
Proof.
  rewrite (postal_stage_found df).
  destruct (omap (located (Py.int loc_key)) (iterrows df)) as [|x found'] eqn:Hfound;
    [done|].
  rewrite <-Hfound.
  set (found := omap (located (Py.int loc_key)) (iterrows df)) in *.
  set (kept := take 20 (sort_by distance_leb found)).
  assert (kept ≠ []) as Hne.
  { intros Hk. apply (f_equal length) in Hk. unfold kept in Hk.
    rewrite length_take, sort_by_length, Hfound in Hk. simpl in Hk. lia. }
  assert (Forall (λ r, located (Py.int loc_key) r = Some r) kept) as Hfix.
  { apply Forall_take. rewrite sort_by_perm. apply Forall_forall.
    intros r (r0 & _ & Hl)%list_elem_of_omap. by eapply located_fixed. }
  assert (StronglySorted (λ a b, distance_leb a b = true) kept) as Hsorted.
  { pose proof (sort_by_sorted distance_leb distance_leb_total distance_leb_trans found)
      as Hs.
    rewrite <-(take_drop 20 (sort_by distance_leb found)) in Hs.
    by apply StronglySorted_app_1_l in Hs. }
  rewrite postal_stage_found, iterrows_frame, (omap_fixed _ _ Hfix).
  destruct kept as [|k kept'] eqn:Hk; [done|]. rewrite <-Hk in *.
  rewrite (sort_by_id _ _ Hsorted), columns_with_distance_twice.
  f_equal. unfold kept. by rewrite take_take.
Qed.

(** ** Order and scores of the fused candidates *)

Lemma StronglySorted_filter {A} (R : A → A → Prop) (P : A → bool) l :
  StronglySorted R l → StronglySorted R (filter (λ x, P x) l).
Proof.
  induction 1 as [|x l Hl IH Hx]; [constructor|].
  rewrite filter_cons. case_decide; [|done].
  constructor; [done|]. apply Forall_forall. intros y [_ Hy]%list_elem_of_filter.
  rewrite Forall_forall in Hx. by apply Hx.
Qed.

Lemma StronglySorted_fmap_2 {A B} (f : A → B) (R : B → B → Prop) l :
  StronglySorted (λ x y, R (f x) (f y)) l → StronglySorted R (f <$> l).
Proof.
  induction 1 as [|x l Hl IH Hx]; csimpl; constructor; [done|].
  by apply Forall_fmap.
Qed.

Lemma fused_leb_total (x y : string * Best) :
  Qle_bool y.2.1.1 x.2.1.1 = true ∨ Qle_bool x.2.1.1 y.2.1.1 = true.
Proof.
  rewrite !Qle_bool_iff.
  destruct (Qlt_le_dec x.2.1.1 y.2.1.1); [right|left]; [|done].
  by apply Qlt_le_weak.
Qed.

Lemma fused_leb_trans (x y z : string * Best) :
  Qle_bool y.2.1.1 x.2.1.1 = true → Qle_bool z.2.1.1 y.2.1.1 = true →
  Qle_bool z.2.1.1 x.2.1.1 = true.
Proof. rewrite !Qle_bool_iff. intros ??. by eapply Qle_trans. Qed.

(** Within the exact tier and within the fuzzy tier the candidates are in
    order of non-increasing fused score, whatever the scorers return. *)
Theorem tiers_best_first `{RapidFuzz} keywords names :
  StronglySorted (λ a b : Match, (match_score b <= match_score a)%Q)
    (tiers keywords names).1
  ∧ StronglySorted (λ a b : Match, (match_score b <= match_score a)%Q)
      (tiers keywords names).2.
Proof.
  rewrite tiers_spec. cbn [fst snd].
  pose proof (sort_by_sorted (λ x y : string * Best, Qle_bool y.2.1.1 x.2.1.1)
                fused_leb_total fused_leb_trans (fused keywords names)) as Hs.
  split; apply StronglySorted_fmap_2, StronglySorted_filter;
    (eapply StronglySorted_weaken; [|exact Hs]);
    intros x y Hxy; by apply Qle_bool_iff.
Qed.

Section Strategy4Scores.
Context `{RapidFuzz}.

Lemma fold_Qplus_ge (l : list Q) (a m : Q) :
  Forall (λ x, (m <= x)%Q) l →
  (a + inject_Z (Z.of_nat (length l)) * m <= fold_left Qplus l a)%Q.
Proof.
  intros Hl. revert a. induction Hl as [|x l Hx _ IH]; intros a.
  - simpl. apply Qle_lteq. right. ring.
  - cbn [fold_left length]. eapply Qle_trans; [|apply IH].
    rewrite Nat2Z.inj_succ. unfold Z.succ. rewrite inject_Z_plus.
    apply Qle_trans with (a + m + inject_Z (Z.of_nat (length l)) * m)%Q.
    + apply Qle_lteq. right. ring.
    + apply Qplus_le_compat; [|apply Qle_refl].
      apply Qplus_le_compat; [apply Qle_refl|done].
Qed.

Lemma average_ge_min (l : list Q) :
  l ≠ [] → (Qmin_list l <= Qsum l / inject_Z (Z.of_nat (length l)))%Q.
Proof.
  intros Hne.
  assert (0 < inject_Z (Z.of_nat (length l)))%Q as Hpos.
  { destruct l; [done|]. unfold Qlt, inject_Z. simpl. lia. }
  apply Qle_shift_div_l; [done|].
  pose proof (fold_Qplus_ge l 0 (Qmin_list l)) as Hge.
  eapply Qle_trans; [|apply Hge].
  - apply Qle_lteq. right. ring.
  - apply Forall_forall. intros x Hx. by apply Qmin_list_le.
Qed.

(** Every candidate strategy 4 reports has a score above 35, so it always
    passes the fusion threshold of 25. *)
Lemma multi_word_matches_scores keywords names :
  Forall (λ m, (35 < match_score m)%Q) (multi_word_matches keywords names).
Proof.
  unfold multi_word_matches.
  generalize (enumerate_from 0 names). intros l.
  enough (∀ acc, Forall (λ m, (35 < match_score m)%Q) acc →
    Forall (λ m, (35 < match_score m)%Q)
      (fold_left
         (λ acc (iname : nat * string),
            let name_words := Py.split (Py.lower iname.2) in
            let word_match_scores :=
              (λ kw, best_word kw name_words) <$> Py.split (Py.lower keywords) in
            if (0 <? length word_match_scores)%nat
               && Qgtb (Qmin_list word_match_scores) 35
            then acc ++ [(iname.2,
                          (Qsum word_match_scores
                           / inject_Z (Z.of_nat (length word_match_scores)))%Q,
                          iname.1)]
            else acc) l acc)) as Hgen by by apply Hgen.
  induction l as [|iname l IH]; intros acc Hacc; simpl; [done|].
  apply IH.
  set (scores := (λ kw, best_word kw (Py.split (Py.lower iname.2)))
                   <$> Py.split (Py.lower keywords)).
  destruct ((0 <? length scores)%nat && Qgtb (Qmin_list scores) 35) eqn:Hok; [|done].
  apply andb_true_iff in Hok as [Hlen Hmin].
  apply Forall_app. split; [done|]. constructor; [|constructor].
  unfold match_score. cbn [fst snd].
  apply Qlt_le_trans with (Qmin_list scores).
  - unfold Qgtb in Hmin. apply negb_true_iff in Hmin.
    apply Qnot_le_lt. intros Hle%Qle_bool_iff. congruence.
  - apply average_ge_min. apply Nat.ltb_lt in Hlen. by destruct scores.
Qed.
End Strategy4Scores.

(** Every candidate reported by strategy 4 scores above 35 (the mean of its
    per-word scores is at least their minimum), so each one passes the
    fusion threshold of 25 and is fused. *)
Theorem strategy4_scores_above_threshold `{RapidFuzz} keywords names :
  Forall (λ m, (35 < match_score m)%Q ∧ Qgtb (match_score m) 25 = true)
    (multi_word_matches keywords names).
Proof.
  eapply Forall_impl; [apply multi_word_matches_scores|].
  intros m Hm. split; [done|]. unfold Qgtb. apply negb_true_iff.
  destruct (Qle_bool (match_score m) 25) eqn:Hle; [|done].
  apply Qle_bool_iff in Hle. exfalso.
  apply (Qlt_irrefl 35). eapply Qlt_le_trans; [exact Hm|].
  eapply Qle_trans; [exact Hle|]. done.
Qed.

(** * [get_coordinates], the marker colours of [create_map], the headers of [load_data] *)

(** A pair (latitude, longitude). *)
Definition Coord : Type := Q * Q.

(** The table of codes with known coordinates. *)
Definition postal_coordinates : gmap string Coord :=
  list_to_map
    [ ("640526", (1.3486, 103.7065)%Q);
      ("640652", (1.3500, 103.7070)%Q);
      ("640650", (1.3495, 103.7068)%Q);
      ("640651", (1.3498, 103.7069)%Q);
      ("641650", (1.3390, 103.7120)%Q);
      ("641651", (1.3392, 103.7122)%Q);
      ("641653", (1.3398, 103.7128)%Q) ].

(** The fallback table of area centres in [get_coordinates]. *)
Definition area_coords : gmap string Coord :=
  list_to_map
    [ ("Jurong West", (1.347, 103.717)%Q);
      ("Bedok", (1.324, 103.930)%Q);
      ("Tampines", (1.345, 103.944)%Q);
      ("Yishun", (1.429, 103.835)%Q);
      ("Woodlands", (1.437, 103.786)%Q);
      ("Ang Mo Kio", (1.375, 103.845)%Q);
      ("Sengkang", (1.391, 103.895)%Q);
      ("Punggol", (1.405, 103.902)%Q);
      ("Serangoon", (1.357, 103.874)%Q);
      ("Bukit Batok", (1.358, 103.754)%Q);
      ("Bukit Merah", (1.277, 103.823)%Q);
      ("Clementi", (1.315, 103.760)%Q);
      ("Hougang", (1.371, 103.886)%Q);
      ("Pasir Ris", (1.372, 103.949)%Q);
      ("Toa Payoh", (1.334, 103.856)%Q) ].

(** What a call [geolocator.geocode(query, timeout=5)] can do: raise, find
    nothing, or find a location. *)
Inductive Reply : Type :=
| Raised
| NotFound
| Found (location : Coord).

(** [s.replace('\n', ' ')] *)
Fixpoint replace_newlines (s : string) : string :=
  match s with
  | EmptyString => EmptyString
  | String c s' =>
      String (if Ascii.eqb c "010" then " "%char else c) (replace_newlines s')
  end.

(** [s.replace('  ', ' ')]: one pass from the left, occurrences not
    overlapping. *)
Fixpoint replace_double_spaces (s : string) : string :=
  match s with
  | String a (String b s' as t) =>
      if Ascii.eqb a " " && Ascii.eqb b " "
      then String " " (replace_double_spaces s')
      else String a (replace_double_spaces t)
  | _ => s
  end.

(** [s.rstrip()] and [s.strip()] *)
Fixpoint rstrip (s : string) : string :=
  match s with
  | EmptyString => EmptyString
  | String c s' =>
      match rstrip s' with
      | EmptyString => if Py.is_space c then EmptyString else String c EmptyString
      | r => String c r
      end
  end.

Definition strip (s : string) : string := rstrip (skip_spaces s).

Definition clean_address (address : string) : string :=
  strip (replace_double_spaces (replace_newlines address)).

Section Geocoding.
(** The geocoding service, and the search of the pattern
    [(\d+\s+[\w\s]+Street\s+\d+)] in a cleaned address (its group, when it
    matches): both are outside the engine. *)
Variable geocode : string → Reply.
Variable street_search : string → option string.

(** Attempt 4: the table of area centres. *)
Definition area_fallback (area : option string) : option Coord :=
  if Py.truthy area then area_coords !! default "" area else None.

(** Attempt 3: the area name sent to the service. *)
Definition geocode_area (area : option string) : option Coord :=
  if Py.truthy area then
    match geocode (default "" area +:+ ", Singapore") with
    | Raised => None
    | Found location => Some location
    | NotFound => area_fallback area
    end
  else area_fallback area.

(** Attempt 2: the street part of the address sent to the service. *)
Definition geocode_street (clean_address : string) (area : option string)
    : option Coord :=
  match street_search clean_address with
  | Some street =>
      match geocode (street +:+ ", Singapore") with
      | Raised => None
      | Found location => Some location
      | NotFound => geocode_area area
      end
  | None => geocode_area area
  end.

(** [get_coordinates(address, area)]; any exception ends in [return None]. *)
Definition get_coordinates (address : string) (area : option string) : option Coord :=
  let precise :=
    match search_postal address with
    | Some postal_code => postal_coordinates !! postal_code
    | None => None
    end in
  match precise with
  | Some coords => Some coords
  | None =>
      let clean_address := clean_address address in
      match geocode clean_address with
      | Raised => None
      | Found location => Some location
      | NotFound => geocode_street clean_address area
      end
  end.

(** An address whose postal code is in the table gets the table's
    coordinates, whatever the service would answer. *)
Lemma known_postal_code_needs_no_geocoder address area postal_code coords :
  search_postal address = Some postal_code →
  postal_coordinates !! postal_code = Some coords →
  get_coordinates address area = Some coords.
Proof. intros Hs Hc. unfold get_coordinates. by rewrite Hs, Hc. Qed.

(** The query marker of [create_map] asks for "Singapore <code>": for a
    six-digit code the answer is the table entry when there is one. *)
Theorem query_marker_coordinates digits area coords :
  String.length digits = 6%nat → Py.all_digits digits = true →
  postal_coordinates !! digits = Some coords →
  get_coordinates ("Singapore " +:+ digits) area = Some coords.
Proof.
  intros Hl Hd Hc. apply (known_postal_code_needs_no_geocoder _ _ digits); [|done].
  pose proof (match_postal_at_marker " " digits "" ltac:(discriminate) eq_refl Hl Hd)
    as Hm.
  assert (digits +:+ "" = digits) as Happ.
  { clear. induction digits as [|c s IH]; [done|].
    change (String c (s +:+ "") = String c s). by rewrite IH. }
  rewrite Happ in Hm.
  change ("Singapore " +:+ digits) with (String "S" ("ingapore " +:+ digits)) in *.
  change ("Singapore" +:+ " " +:+ digits) with (String "S" ("ingapore " +:+ digits)) in Hm.
  cbn [search_postal]. by rewrite Hm.
Qed.

(** An exception of the service on the first request ends the lookup with
    no coordinates: the area is not tried and the table of area centres is
    not consulted. *)
Theorem geocoder_exception_gives_nothing address area :
  (∀ postal_code, search_postal address = Some postal_code →
                  postal_coordinates !! postal_code = None) →
  geocode (clean_address address) = Raised →
  get_coordinates address area = None.
Proof.
  intros Hp Hr. unfold get_coordinates.
  destruct (search_postal address) as [code|]; [rewrite (Hp code eq_refl)|];
    by rewrite Hr.
Qed.

(** When the service finds nothing for the address, its street and the area,
    the result is the table entry of the area name, looked up as written:
    no coordinates for an area missing from the table or for no area. *)
Theorem service_silent_falls_back_to_area_table address area :
  (∀ postal_code, search_postal address = Some postal_code →
                  postal_coordinates !! postal_code = None) →
  (∀ query, geocode query = NotFound) →
  get_coordinates address area =
    if Py.truthy area then area_coords !! default "" area else None.
Proof.
  intros Hp Hn. unfold get_coordinates, geocode_street, geocode_area, area_fallback.
  destruct (search_postal address) as [code|]; [rewrite (Hp code eq_refl)|];
    rewrite !Hn; destruct (street_search _); rewrite ?Hn;
    by destruct (Py.truthy area); rewrite ?Hn.
Qed.
End Geocoding.

Lemma known_postal_code_needs_no_geocoder_witness :
  search_postal "Blk 526 Jurong West Street 52 Singapore 640526" = Some "640526"
  ∧ postal_coordinates !! "640526" = Some (1.3486, 103.7065)%Q
  ∧ get_coordinates (λ _, Raised) (λ _, None)
      "Blk 526 Jurong West Street 52 Singapore 640526" (Some "Jurong West")
    = Some (1.3486, 103.7065)%Q.
Proof.
  assert (search_postal "Blk 526 Jurong West Street 52 Singapore 640526"
          = Some "640526") as Hs by reflexivity.
  assert (postal_coordinates !! "640526" = Some (1.3486, 103.7065)%Q) as Hc
    by (vm_compute; reflexivity).
  split; [exact Hs|]. split; [exact Hc|].
  exact (known_postal_code_needs_no_geocoder (λ _, Raised) (λ _, None) _ _ _ _ Hs Hc).
Defined.

Lemma query_marker_coordinates_witness :
  String.length "641651" = 6%nat ∧ Py.all_digits "641651" = true
  ∧ postal_coordinates !! "641651" = Some (1.3392, 103.7122)%Q
  ∧ get_coordinates (λ _, NotFound) (λ _, None) ("Singapore " +:+ "641651") None
    = Some (1.3392, 103.7122)%Q.
Proof.
  assert (postal_coordinates !! "641651" = Some (1.3392, 103.7122)%Q) as Hc
    by (vm_compute; reflexivity).
  split; [reflexivity|]. split; [reflexivity|]. split; [exact Hc|].
  exact (query_marker_coordinates (λ _, NotFound) (λ _, None) "641651" None _
           eq_refl eq_refl Hc).
Defined.

Lemma geocoder_exception_gives_nothing_witness :
  (∀ postal_code, search_postal "1 Bedok North Street 1" = Some postal_code →
                  postal_coordinates !! postal_code = None)
  ∧ get_coordinates (λ _, Raised) (λ _, None) "1 Bedok North Street 1" (Some "Bedok")
    = None.
Proof.
  assert (∀ postal_code, search_postal "1 Bedok North Street 1" = Some postal_code →
                         postal_coordinates !! postal_code = None) as Hp
    by (intros postal_code Hs; vm_compute in Hs; discriminate).
  split; [exact Hp|].
  exact (geocoder_exception_gives_nothing (λ _, Raised) (λ _, None)
           "1 Bedok North Street 1" (Some "Bedok") Hp eq_refl).
Defined.

Lemma service_silent_falls_back_to_area_table_witness :
  (∀ postal_code, search_postal "1 Bedok North Street 1" = Some postal_code →
                  postal_coordinates !! postal_code = None)
  ∧ (∀ query : string, (λ _ : string, NotFound) query = NotFound)
  ∧ get_coordinates (λ _, NotFound) (λ _, None) "1 Bedok North Street 1" (Some "bedok")
    = None.
Proof.
  assert (∀ postal_code, search_postal "1 Bedok North Street 1" = Some postal_code →
                         postal_coordinates !! postal_code = None) as Hp
    by (intros postal_code Hs; vm_compute in Hs; discriminate).
  split; [exact Hp|]. split; [done|].
  rewrite (service_silent_falls_back_to_area_table (λ _, NotFound) (λ _, None)
             "1 Bedok North Street 1" (Some "bedok") Hp (λ _, eq_refl)).
  vm_compute. reflexivity.
Defined.

(** ** Marker colours of [create_map] *)

Inductive Colour : Type := green | orange | gray.

(** The colour of a clinic's marker: [distance = clinic.get('_distance', '')],
    then the tests [if distance:] and [distance <= 2000]. *)
Definition marker_colour (clinic : Row) : Colour :=
  match _distance clinic with
  | Some distance =>
      if negb (Qeq_bool distance 0) then
        if Qle_bool distance 2000 then green else orange
      else gray
  | None => gray
  end.

(** The colour of a clinic found by a postal search, from the two codes: gray
    when the clinic has the query's own code (its distance 0 counts as no
    distance), green when it is in the query's sector and at most 2000 away,
    orange otherwise, in particular for every clinic of another sector. *)
Theorem marker_colour_of_postal_codes row query_postal clinic_postal :
  marker_colour (with_distance row (calculate_postal_distance query_postal clinic_postal))
  = if query_postal =? clinic_postal then gray
    else if (query_postal / 10000 =? clinic_postal / 10000)
            && (Z.abs (query_postal - clinic_postal) <=? 2000)
         then green else orange.
Proof.
  unfold marker_colour, with_distance. cbn [_distance].
  destruct (Z.eqb_spec query_postal clinic_postal) as [->|Hne].
  - unfold calculate_postal_distance. rewrite Z.eqb_refl, Z.sub_diag. done.
  - unfold calculate_postal_distance.
    destruct (Z.eqb_spec (query_postal / 10000) (clinic_postal / 10000)) as [Hs|Hs].
    + assert (Qeq_bool (inject_Z (Z.abs (query_postal - clinic_postal))) 0 = false) as ->.
      { apply not_true_is_false. intros Hz%Qeq_bool_eq.
        unfold Qeq, inject_Z in Hz. simpl in Hz. lia. }
      cbn [negb andb].
      destruct (Z.leb_spec (Z.abs (query_postal - clinic_postal)) 2000) as [Hle|Hgt].
      * rewrite (proj2 (Qle_bool_iff _ _)); [done|].
        unfold Qle, inject_Z. simpl. lia.
      * rewrite (not_true_is_false (Qle_bool _ _)); [done|].
        intros Hle%Qle_bool_iff. unfold Qle, inject_Z in Hle. simpl in Hle. lia.
    + cbn [andb].
      set (base := match area_distances !! _ with
                   | Some hops => hops * 10000
                   | None => Z.abs (query_postal / 10000 - clinic_postal / 10000) * 10000
                   end).
      assert (10000 <= base) as Hbase.
      { unfold base. destruct (area_distances !! _) as [hops|] eqn:Hl.
        - apply area_distances_gap in Hl as [_ Hpos]. lia.
        - lia. }
      set (sub := Z.abs (query_postal mod 10000 - clinic_postal mod 10000)).
      assert (0 <= sub) as Hsub by (unfold sub; lia).
      assert (Qeq_bool (inject_Z base + Qmake sub 100) 0 = false) as ->.
      { apply not_true_is_false. intros Hz%Qeq_bool_eq.
        unfold Qeq, Qplus, inject_Z in Hz. simpl in Hz. lia. }
      cbn [negb].
      rewrite (not_true_is_false (Qle_bool _ _)); [done|].
      intros Hle%Qle_bool_iff. unfold Qle, Qplus, inject_Z in Hle. simpl in Hle. lia.
Qed.

(** ** Column headers in [load_data] *)

(** The entry of [d_map] for a header of the doctors file, if any. *)
Definition doctor_header (col : string) : option string :=
  let cl := Py.lower col in
  if Py.contains "doctor name" cl || Py.contains "name" cl then Some "Name"
  else if Py.contains "specialty" cl then Some "Specialty"
  else if Py.contains "languages spoken" cl || Py.contains "language" cl
       then Some "Languages"
  else if Py.contains "services" cl then Some "Services"
  else if Py.contains "qualifications" cl then Some "Qualifications"
  else if Py.contains "designation" cl then Some "Designation"
  else None.

(** The entry of [c_map] for a header of the clinics file, if any. *)
Definition clinic_header (col : string) : option string :=
  let cl := Py.lower col in
  if Py.contains "gp clinic name" cl || Py.contains "clinic name" cl then Some "Name"
  else if Py.contains "clinic address" cl || Py.contains "address" cl then Some "Address"
  else if Py.contains "area" cl then Some "Area"
  else None.

(** [df.rename(columns=mapping)] on the header list: a header without an
    entry is kept. *)
Definition rename (mapping : string → option string) (cols : list string)
    : list string :=
  (λ col, default col (mapping col)) <$> cols.

Lemma doctor_header_target col target :
  doctor_header col = Some target → doctor_header target = Some target.
Proof.
  unfold doctor_header at 1. cbv zeta.
  repeat case_match; intros [= <-]; reflexivity.
Qed.

Lemma clinic_header_target col target :
  clinic_header col = Some target → default target (clinic_header target) = target.
Proof.
  unfold clinic_header at 1. cbv zeta.
  repeat case_match; intros [= <-]; reflexivity.
Qed.

(** Normalising the headers is idempotent for both files: the headers of a
    file that was already normalised are left as they are. *)
Theorem rename_headers_idempotent cols :
  rename doctor_header (rename doctor_header cols) = rename doctor_header cols
  ∧ rename clinic_header (rename clinic_header cols) = rename clinic_header cols.
Proof.
  unfold rename. rewrite <-!list_fmap_compose.
  split; apply list_fmap_ext; intros _ col _; simpl.
  - destruct (doctor_header col) as [target|] eqn:Hh; simpl.
    + by rewrite (doctor_header_target _ _ Hh).
    + by rewrite Hh.
  - destruct (clinic_header col) as [target|] eqn:Hh; simpl.
    + by apply (clinic_header_target col).
    + by rewrite Hh.
Qed.

(** ** A specialty filter on a dataset without specialty columns *)







(** ** The postal distance is a metric *)





(** ** The language filter *)



(** ** An area that matches nothing *)




(** ** Which fuzzy candidates are returned *)

(** The fused selection holds, besides exact-tier entries, at most three
    fuzzy entries, each with a fused score above 60; with three or more
    exact entries it holds no fuzzy entry at all. *)
Theorem fuzzy_entries_need_high_score `{RapidFuzz} keywords fdf :
  let names := (λ r, row_get r "Name") <$> iterrows fdf in
  let exact_matches := (tiers keywords names).1 in
  let fuzzy_matches := (tiers keywords names).2 in
  ∃ chosen_fuzzy,
    final_matches keywords fdf = take 5 (exact_matches ++ chosen_fuzzy)
    ∧ (length chosen_fuzzy ≤ 3)%nat
    ∧ Forall (λ m, m ∈ fuzzy_matches ∧ (60 < match_score m)%Q) chosen_fuzzy
    ∧ ((3 ≤ length exact_matches)%nat →
       final_matches keywords fdf = take 5 exact_matches).
Proof.
  intros names exact_matches fuzzy_matches.
  unfold final_matches, select_final. fold names. fold exact_matches. fold fuzzy_matches.
  destruct (Nat.leb_spec 3 (length exact_matches)) as [Hthree|Hless].
  - exists []. rewrite app_nil_r, take_take. repeat split; simpl; try lia; try done.
  - exists (take 3 (filter (λ m, Qgtb (match_score m) 60 = true) fuzzy_matches)).
    split; [done|]. split; [rewrite length_take; lia|]. split; [|lia].
    apply Forall_take, Forall_forall. intros m [Hs Hin]%list_elem_of_filter.
    split; [done|]. unfold Qgtb in Hs. apply negb_true_iff in Hs.
    apply Qnot_le_lt. intros Hle%Qle_bool_iff. congruence.
Qed.
